(** * Virtual Try-On: the proxy handler, the generation client and the UI actions

    A shallow embedding of the three pieces of the application that carry
    behaviour:

    - [Proxy.handler], the rate-limited HTTP proxy in front of the Gemini
      endpoint;
    - [GeminiService.performVirtualTryOn] and [GeminiService.refineImage],
      the browser-side generation client;
    - [App.handleVirtualTryOn] and [App.handleRefine], the two asynchronous
      actions of the React component.

    JavaScript values are modelled as the handlers see them: a value that may
    be [null] or [undefined] is an [option], [process.env] is a finite map
    from names to strings, a thrown value is a [Thrown], and an [await] that
    may reject is a computation that may throw. *)

From Stdlib Require Import ZArith List String Ascii Bool Lia.
From Stdlib.Strings Require Import Byte.
From stdpp Require Import base option list strings gmap.

Local Open Scope string_scope.
Local Open Scope Z_scope.

(** ** JavaScript values shared by the three modules *)

Module JS.

(** What a [throw] or a rejected promise carries: an instance of [Error]
    (with its [name] and [message]) or any other value. *)
Inductive Thrown : Type :=
| ErrorObject (name message : string)
| OtherValue.

(** [err.message]: [undefined] on a value that is not an [Error]. *)
Definition message (err : Thrown) : option string :=
  match err with
  | ErrorObject _ m => Some m
  | OtherValue => None
  end.

(** Truthiness of a value that is a string, [null] or [undefined]:
    only a non-empty string is truthy. *)
Definition truthy (v : option string) : bool :=
  match v with
  | Some s => negb (String.eqb s EmptyString)
  | None => false
  end.

(** [v || d] for such a value and a string default. *)
Definition or_else (v : option string) (d : string) : string :=
  match v with
  | Some s => if String.eqb s EmptyString then d else s
  | None => d
  end.

(** The string a truthy value holds (used after a truthiness test). *)
Definition str (v : option string) : string := default EmptyString v.

(** A variable of the environment that is set, to the non-empty string [s]. *)
Definition set_to (v : option string) (s : string) : Prop :=
  v = Some s /\ s <> EmptyString.

(** A variable of the environment that is unset, or set to the empty
    string: the two cases in which [!process.env.NAME] holds. *)
Definition unset_or_empty (v : option string) : Prop :=
  v = None \/ v = Some EmptyString.

End JS.

(** ** The proxy handler *)

Module Proxy.
Import JS.

(** *** The rate limiter's configuration
    [new Bottleneck({ maxConcurrent: 1, minTime: 6000 })]. *)
Record BottleneckOptions : Type := {
  maxConcurrent : nat;
  minTime : Z
}.

Definition limiter : BottleneckOptions :=
  {| maxConcurrent := 1; minTime := 6000 |}.

(** *** The upstream side: [fetch] and its [Response] *)

Record FetchInit : Type := {
  init_method : string;
  init_headers : list (string * string);
  init_body : string
}.

(** A [Response] as [fetch] resolves it. [headers] is keyed by lower-case
    names, as [Headers.get] looks them up; [body] is [None] for a null body
    and the bytes of the body stream otherwise. *)
Record Response : Type := {
  status : Z;
  headers : gmap string string;
  body : option (list byte)
}.

(** The bytes a body holds: none for a null body. *)
Definition bytes_of (r : Response) : list byte := default [] (body r).

(** [response.ok]: the status is in the range 200-299. *)
Definition ok (r : Response) : bool :=
  (200 <=? status r) && (status r <=? 299).

Inductive FetchOutcome : Type :=
| Resolves (r : Response)
| Rejects (err : Thrown).

(** The process the handler runs in: its environment and the network. *)
Record Process : Type := {
  env : gmap string string;
  fetch : string -> FetchInit -> FetchOutcome
}.

(** *** The downstream side: the [res] object and the console *)

Inductive Payload : Type :=
| EndText (s : string)
| Json (fields : list (string * string))
| Buffer_from (bytes : list byte).

Record ServerResponse : Type := {
  statusCode : Z;
  res_headers : gmap string string;
  sent : option Payload
}.

Inductive ConsoleLine : Type :=
| Log (label text : string)
| ErrorLine (label text : string)
| ErrorThrown (label : string) (err : Thrown).

(** The state one invocation of the handler works on: the response under
    construction, the console, the upstream calls made so far, and whether
    the body stream of [externalResp] has been read ([bodyUsed]). *)
Record St : Type := {
  res : ServerResponse;
  console : list ConsoleLine;
  upstream : list (string * FetchInit);
  bodyUsed : bool
}.

Definition init_res : ServerResponse :=
  {| statusCode := 200; res_headers := ∅; sent := None |}.

Definition init_st : St :=
  {| res := init_res; console := []; upstream := []; bodyUsed := false |}.

(** *** A state and exception monad for the handler's body *)

Definition M (A : Type) : Type := St -> St * (Thrown + A).

Definition ret {A : Type} (a : A) : M A := fun s => (s, inr a).

Definition throw {A : Type} (err : Thrown) : M A := fun s => (s, inl err).

Definition bind {A B : Type} (c : M A) (k : A -> M B) : M B :=
  fun s =>
    match c s with
    | (s', inr a) => k a s'
    | (s', inl err) => (s', inl err)
    end.

(** [try { c } catch (err) { h err }] *)
Definition try_catch {A : Type} (c : M A) (h : Thrown -> M A) : M A :=
  fun s =>
    match c s with
    | (s', inr a) => (s', inr a)
    | (s', inl err) => h err s'
    end.

Declare Scope handler_scope.
Delimit Scope handler_scope with handler.
Notation "'let*' x ':=' c 'in' k" := (bind c (fun x => k))
  (at level 10, x name, c at level 100, k at level 200) : handler_scope.
Notation "c ';;;' k" := (bind c (fun _ => k))
  (at level 100, k at level 200, right associativity) : handler_scope.

Definition modify (f : St -> St) : M unit := fun s => (f s, inr tt).

Definition with_res (f : ServerResponse -> ServerResponse) (s : St) : St :=
  {| res := f (res s); console := console s;
     upstream := upstream s; bodyUsed := bodyUsed s |}.

(** [res.setHeader(name, value)] *)
Definition res_setHeader (name value : string) : M unit :=
  modify (with_res (fun r =>
    {| statusCode := statusCode r;
       res_headers := <[name := value]> (res_headers r);
       sent := sent r |})).

(** [res.status(code)] *)
Definition res_status (code : Z) : M unit :=
  modify (with_res (fun r =>
    {| statusCode := code; res_headers := res_headers r; sent := sent r |})).

Definition res_finish (p : Payload) : M unit :=
  modify (with_res (fun r =>
    {| statusCode := statusCode r; res_headers := res_headers r;
       sent := Some p |})).

(** [res.end(text)], [res.json(object)] and [res.send(Buffer.from(bytes))] *)
Definition res_end (text : string) : M unit := res_finish (EndText text).
Definition res_json (fields : list (string * string)) : M unit :=
  res_finish (Json fields).
Definition res_send (bytes : list byte) : M unit :=
  res_finish (Buffer_from bytes).

Definition console_write (l : ConsoleLine) : M unit :=
  modify (fun s =>
    {| res := res s; console := console s ++ [l];
       upstream := upstream s; bodyUsed := bodyUsed s |}).

(** [fetch(url, init)]: the call is recorded, then the network answers. The
    response it resolves with has an unread body. *)
Definition call_fetch (process : Process) (url : string) (init : FetchInit)
  : M Response :=
  fun s =>
    let s' := {| res := res s; console := console s;
                 upstream := upstream s ++ [(url, init)];
                 bodyUsed := false |} in
    match fetch process url init with
    | Resolves r => (s', inr r)
    | Rejects err => (s', inl err)
    end.

(** [limiter.schedule(job)]: the limiter runs the job when its turn comes and
    settles with the job's own outcome. When the turn comes is not part of
    this model. *)
Definition limiter_schedule {A : Type} (job : M A) : M A := job.

(** The message of the [TypeError] a second read of a body is rejected with,
    in Node's wording; other runtimes word it differently, and nothing below
    depends on the wording. *)
Definition body_unusable : string :=
  "Body is unusable: Body has already been read".

(** Reading a body: a null body reads as no bytes, any number of times; a
    body stream can be read once, and a second read is rejected with a
    [TypeError]. *)
Definition consume_body (r : Response) : M (list byte) :=
  fun s =>
    match body r with
    | None => (s, inr [])
    | Some bytes =>
        if bodyUsed s
        then (s, inl (ErrorObject "TypeError" body_unusable))
        else ({| res := res s; console := console s;
                 upstream := upstream s; bodyUsed := true |}, inr bytes)
    end.

(** [response.arrayBuffer()] *)
Definition arrayBuffer (r : Response) : M (list byte) := consume_body r.

Section Handler.

(** The parsed request body, [JSON.stringify(value, null, space)] on it, and
    the UTF-8 decoder behind [response.text()]. *)
Variable Body : Type.
Variable JSON_stringify : Body -> nat -> string.
Variable utf8_decode : list byte -> string.

Record IncomingRequest : Type := {
  method : string;
  req_body : Body
}.

(** [response.text()] *)
Definition text (r : Response) : M string :=
  (let* bytes := consume_body r in ret (utf8_decode bytes))%handler.

(** [{ error: ..., details: ... }]; a property whose value is [undefined] is
    left out of the JSON text. *)
Definition error_envelope (error : string) (details : option string)
  : list (string * string) :=
  ("error", error) ::
  match details with
  | Some d => [("details", d)]
  | None => []
  end.

Definition quota_exceeded : string :=
  "Quota exceeded. Please wait and try again later, or upgrade your Google Cloud billing plan.".

(** The options of the upstream [fetch]: a POST of [JSON.stringify(req.body)]
    with the bearer token. *)
Definition upstream_request (GEMINI_KEY : string) (req : IncomingRequest)
  : FetchInit :=
  {| init_method := "POST";
     init_headers :=
       [("Content-Type", "application/json");
        ("Authorization", "Bearer " +:+ GEMINI_KEY)];
     init_body := JSON_stringify (req_body req) 0 |}.

Definition handler (process : Process) (req : IncomingRequest) : M unit :=
  (if negb (String.eqb (method req) "POST") then
     res_setHeader "Allow" "POST" ;;;
     res_status 405 ;;;
     res_end "Method Not Allowed"
   else
     try_catch
       (let GEMINI_URL := env process !! "GEMINI_API_URL" in
        let GEMINI_KEY := env process !! "GEMINI_API_KEY" in
        if negb (truthy GEMINI_URL) || negb (truthy GEMINI_KEY) then
          res_status 500 ;;;
          res_json [("error", "Missing GEMINI_API_URL or GEMINI_API_KEY")]
        else
          console_write (Log "Incoming request body for Gemini API:"
                             (JSON_stringify (req_body req) 2)) ;;;
          let* externalResp :=
            limiter_schedule
              (call_fetch process (str GEMINI_URL)
                 (upstream_request (str GEMINI_KEY) req)) in
          let contentType :=
            or_else (headers externalResp !! "content-type")
                    "application/json" in
          let* buffer := arrayBuffer externalResp in
          if status externalResp =? 429 then
            let* errorText := text externalResp in
            console_write (ErrorLine "Gemini API quota exceeded:" errorText) ;;;
            res_status 429 ;;;
            res_json (error_envelope quota_exceeded (Some errorText))
          else if negb (ok externalResp) then
            let* errorText := text externalResp in
            console_write (ErrorLine "Gemini API error:" errorText) ;;;
            res_status (status externalResp) ;;;
            res_json (error_envelope "API error occurred" (Some errorText))
          else
            res_status (status externalResp) ;;;
            res_setHeader "Content-Type" contentType ;;;
            res_send buffer)
       (fun err =>
          console_write (ErrorThrown "Proxy error:" err) ;;;
          res_status 500 ;;;
          res_json (error_envelope "Server error" (message err))))%handler.

(** The state the invocation ends in. *)
Definition run (process : Process) (req : IncomingRequest) : St :=
  fst (handler process req init_st).

(** The other variant of the handler in the repository: no limiter, no
    logging of the request and no look at the upstream status; whatever the
    upstream answers is relayed. *)
Definition handler_unlimited (process : Process) (req : IncomingRequest)
  : M unit :=
  (if negb (String.eqb (method req) "POST") then
     res_setHeader "Allow" "POST" ;;;
     res_status 405 ;;;
     res_end "Method Not Allowed"
   else
     try_catch
       (let GEMINI_URL := env process !! "GEMINI_API_URL" in
        let GEMINI_KEY := env process !! "GEMINI_API_KEY" in
        if negb (truthy GEMINI_URL) || negb (truthy GEMINI_KEY) then
          res_status 500 ;;;
          res_json [("error", "Missing GEMINI_API_URL or GEMINI_API_KEY")]
        else
          let* externalResp :=
            call_fetch process (str GEMINI_URL)
              (upstream_request (str GEMINI_KEY) req) in
          let contentType :=
            or_else (headers externalResp !! "content-type")
                    "application/json" in
          let* buffer := arrayBuffer externalResp in
          res_status (status externalResp) ;;;
          res_setHeader "Content-Type" contentType ;;;
          res_send buffer)
       (fun err =>
          console_write (ErrorThrown "Proxy error:" err) ;;;
          res_status 500 ;;;
          res_json (error_envelope "Server error" (message err))))%handler.

Definition run_unlimited (process : Process) (req : IncomingRequest) : St :=
  fst (handler_unlimited process req init_st).

End Handler.

End Proxy.

(** ** The generation client *)

Module GeminiService.
Import JS.

(** *** The provider's request and response shapes *)

Record Blob : Type := {
  data : string;
  mimeType : string
}.

(** A content part: it may carry [inlineData], [text], both or neither. *)
Record Part : Type := {
  inlineData : option Blob;
  part_text : option string
}.

(** [parts] is [None] when the content has no such property. *)
Record Content : Type := { parts : option (list Part) }.

(** [content] is [None] when the candidate has none, as a candidate that was
    stopped before it produced anything. *)
Record Candidate : Type := { content : option Content }.

(** [candidates] is [None] when the response has no such property. *)
Record GenerateContentResponse : Type := {
  candidates : option (list Candidate)
}.

Inductive Modality : Type := IMAGE | TEXT.

Record GenerateContentParameters : Type := {
  model : string;
  contents : Content;
  responseModalities : list Modality
}.

Inductive CallOutcome : Type :=
| Resolves (response : GenerateContentResponse)
| Rejects (err : Thrown).

(** The page the client runs in: its environment and the provider behind
    [new GoogleGenAI({ apiKey }).models.generateContent]. *)
Record Process : Type := {
  env : gmap string string;
  generateContent : string -> GenerateContentParameters -> CallOutcome
}.

(** What both operations resolve with. *)
Record GenerationResult : Type := {
  imageBase64 : option string;
  text : option string
}.

(** An operation's run: the network calls it made, in order (each with the
    API key it was made with), and whether it threw or returned. *)
Definition Run : Type :=
  list (string * GenerateContentParameters) * (Thrown + GenerationResult).

(** *** The fixed prompts *)

Definition tryOn_prompt : string := "
Objective: Transfer the garment from Image 2 onto the person in Image 1.

Input Image 1: Person photo (the model).
Input Image 2: Garment photo (standalone clothing or clothing worn by someone else).

Instructions:

Detect the garment in Image 2 and replicate it exactly — preserve shape, fabric, color, patterns, and textures.

Overlay this garment onto the person in Image 1, replacing their original clothing.

Ensure the garment naturally fits the body, pose, and proportions of the person.

Match lighting, shading, and perspective so the garment blends seamlessly into Image 1.

Hard Constraints (Do Not Break):

Keep the person’s face, hair, skin, body shape, and pose unchanged.

Keep the background of Image 1 unchanged.

Do not modify or add extra details to the garment — replicate exactly what appears in Image 2.

Do not output anything except the final edited image.
  ".

Definition double_quote : string := String (ascii_of_nat 34) EmptyString.

Definition refine_prompt (userPrompt : string) : string :=
  "Your task is to edit the provided image based on the user's instruction.
  - Apply the user's request precisely.
  - Only change what is requested. Preserve all other aspects of the image, including the person, background, and unmodified parts of the clothing.
  - Output ONLY the final, edited image. Do not include any text.

  User instruction: " +:+ double_quote +:+ userPrompt +:+ double_quote.

Definition image_model : string := "gemini-2.5-flash-image-preview".

(** *** Reading the response *)

(** One turn of the loop over the parts of the first candidate:
    [if (part.inlineData) image = part.inlineData.data;
     else if (part.text) text = part.text;] *)
Definition scan_part (acc : GenerationResult) (part : Part) : GenerationResult :=
  match inlineData part with
  | Some blob => {| imageBase64 := Some (data blob); text := text acc |}
  | None =>
      if truthy (part_text part)
      then {| imageBase64 := imageBase64 acc; text := part_text part |}
      else acc
  end.

Definition nothing : GenerationResult :=
  {| imageBase64 := None; text := None |}.

(** The [TypeError]s of the unchecked [response.candidates[0].content.parts]:
    reading [parts] of a missing content, and iterating over missing parts.
    The messages are in V8's wording; nothing below depends on the wording. *)
Definition no_content : Thrown :=
  ErrorObject "TypeError" "Cannot read properties of undefined (reading 'parts')".

Definition parts_not_iterable : Thrown :=
  ErrorObject "TypeError" "response.candidates[0].content.parts is not iterable".

(** [if (response.candidates && response.candidates.length > 0)
      for (const part of response.candidates[0].content.parts) ...]
    The content of the first candidate and its parts are read without a
    check: when either is missing, the read throws. *)
Definition read_response (response : GenerateContentResponse)
  : Thrown + GenerationResult :=
  match candidates response with
  | Some (first :: _) =>
      match content first with
      | None => inl no_content
      | Some c =>
          match parts c with
          | None => inl parts_not_iterable
          | Some ps => inr (fold_left scan_part ps nothing)
          end
      end
  | Some [] | None => inr nothing
  end.

Definition api_key_unset : Thrown :=
  ErrorObject "Error" "API_KEY environment variable is not set.".

(** The part of both operations after the prompt is built. *)
Definition generate (process : Process) (request_parts : list Part) : Run :=
  let API_KEY := env process !! "API_KEY" in
  if negb (truthy API_KEY) then ([], inl api_key_unset)
  else
    let params :=
      {| model := image_model;
         contents := {| parts := Some request_parts |};
         responseModalities := [IMAGE; TEXT] |} in
    match generateContent process (str API_KEY) params with
    | Rejects err => ([(str API_KEY, params)], inl err)
    | Resolves response => ([(str API_KEY, params)], read_response response)
    end.

Definition image_part (image mime : string) : Part :=
  {| inlineData := Some {| data := image; mimeType := mime |};
     part_text := None |}.

Definition text_part (t : string) : Part :=
  {| inlineData := None; part_text := Some t |}.

Definition performVirtualTryOn (process : Process)
    (personImageBase64 clothingImageBase64 personMimeType clothingMimeType : string)
  : Run :=
  generate process
    [image_part personImageBase64 personMimeType;
     image_part clothingImageBase64 clothingMimeType;
     text_part tryOn_prompt].

Definition refineImage (process : Process)
    (imageBase64 mimeType userPrompt : string) : Run :=
  generate process
    [image_part imageBase64 mimeType;
     text_part (refine_prompt userPrompt)].

(** *** The reading of the response in the specification's words *)

(** The parts of a candidate, when it has content and the content has
    parts. *)
Definition parts_of (c : Candidate) : option (list Part) :=
  match content c with
  | Some c' => parts c'
  | None => None
  end.

(** The payload of the first part that carries [inlineData]. *)
Definition first_inlineData (ps : list Part) : option string :=
  head (omap (fun p => data <$> inlineData p) ps).

(** The first text fragment among the parts. *)
Definition first_text (ps : list Part) : option string :=
  head (omap part_text ps).

(** The payload of the last part that carries [inlineData]. *)
Definition last_inlineData (ps : list Part) : option string :=
  last (omap (fun p => data <$> inlineData p) ps).

(** The text a part contributes: its [text], when the part carries no
    [inlineData] and the text is not empty. *)
Definition text_only (p : Part) : option string :=
  match inlineData p, part_text p with
  | None, Some t => if String.eqb t EmptyString then None else Some t
  | _, _ => None
  end.

(** The last such text among the parts. *)
Definition last_text (ps : list Part) : option string :=
  last (omap text_only ps).

End GeminiService.

(** ** The UI controller *)

Module App.
Import JS.
Import GeminiService (GenerationResult, imageBase64, text).

(** *** Strings
    The characters of a string stand for code units below 256; of
    JavaScript's white space these are TAB, LF, VT, FF, CR, SP and NBSP. *)

Definition isWhiteSpace (c : ascii) : bool :=
  let n := nat_of_ascii c in
  ((9 <=? n)%nat && (n <=? 13)%nat) || (n =? 32)%nat || (n =? 160)%nat.

Fixpoint trimStart (s : string) : string :=
  match s with
  | EmptyString => EmptyString
  | String c rest => if isWhiteSpace c then trimStart rest else s
  end.

Fixpoint trimEnd (s : string) : string :=
  match s with
  | EmptyString => EmptyString
  | String c rest =>
      match trimEnd rest with
      | EmptyString => if isWhiteSpace c then EmptyString else String c EmptyString
      | kept => String c kept
      end
  end.

(** [s.trim()] *)
Definition trim (s : string) : string := trimEnd (trimStart s).

Definition comma : ascii := ascii_of_nat 44.

Fixpoint after_comma (s : string) : option string :=
  match s with
  | EmptyString => None
  | String c rest => if Ascii.eqb c comma then Some rest else after_comma rest
  end.

Fixpoint until_comma (s : string) : string :=
  match s with
  | EmptyString => EmptyString
  | String c rest =>
      if Ascii.eqb c comma then EmptyString else String c (until_comma rest)
  end.

(** [s.split(',')[1]]: the text between the first comma and the next one;
    [undefined] when [s] has no comma. *)
Definition split_comma_1 (s : string) : option string :=
  until_comma <$> after_comma s.

(** *** Files and the component's state *)

(** What [FileReader.readAsDataURL] ends with for a file: a load with a
    string result, a load with a result that is not a string, or an error
    event. *)
Inductive ReadResult : Type :=
| Loaded (dataURL : string)
| LoadedNotString
| ReadFailed.

Record File : Type := {
  type : string;
  readAsDataURL : ReadResult
}.

Record ImageState : Type := {
  preview : string;
  file : File
}.

Record AppState : Type := {
  personImage : option ImageState;
  clothingImage : option ImageState;
  resultImage : option string;
  isLoading : bool;
  isRefining : bool;
  error : option string;
  refinePrompt : string
}.

(** The generation client as the component imports it. An image argument is
    [None] where the component passes [undefined]. *)
Record Client : Type := {
  performVirtualTryOn :
    option string -> option string -> string -> string -> Thrown + GenerationResult;
  refineImage :
    option string -> string -> string -> Thrown + GenerationResult
}.

(** *** What an action does, step by step *)

Inductive Effect : Type :=
| setPersonImage (v : option ImageState)
| setClothingImage (v : option ImageState)
| setResultImage (v : option string)
| setIsLoading (v : bool)
| setIsRefining (v : bool)
| setError (v : option string)
| setRefinePrompt (v : string)
| read_file (f : File)
| call_performVirtualTryOn
    (personBase64 clothingBase64 : option string) (personMime clothingMime : string)
| call_refineImage (image : option string) (mime prompt : string)
| console_error (msg : string).

(** The state after one state setter; the other effects leave it as it is. *)
Definition apply_effect (s : AppState) (e : Effect) : AppState :=
  match e with
  | setPersonImage v =>
      {| personImage := v; clothingImage := clothingImage s;
         resultImage := resultImage s; isLoading := isLoading s;
         isRefining := isRefining s; error := error s;
         refinePrompt := refinePrompt s |}
  | setClothingImage v =>
      {| personImage := personImage s; clothingImage := v;
         resultImage := resultImage s; isLoading := isLoading s;
         isRefining := isRefining s; error := error s;
         refinePrompt := refinePrompt s |}
  | setResultImage v =>
      {| personImage := personImage s; clothingImage := clothingImage s;
         resultImage := v; isLoading := isLoading s;
         isRefining := isRefining s; error := error s;
         refinePrompt := refinePrompt s |}
  | setIsLoading v =>
      {| personImage := personImage s; clothingImage := clothingImage s;
         resultImage := resultImage s; isLoading := v;
         isRefining := isRefining s; error := error s;
         refinePrompt := refinePrompt s |}
  | setIsRefining v =>
      {| personImage := personImage s; clothingImage := clothingImage s;
         resultImage := resultImage s; isLoading := isLoading s;
         isRefining := v; error := error s;
         refinePrompt := refinePrompt s |}
  | setError v =>
      {| personImage := personImage s; clothingImage := clothingImage s;
         resultImage := resultImage s; isLoading := isLoading s;
         isRefining := isRefining s; error := v;
         refinePrompt := refinePrompt s |}
  | setRefinePrompt v =>
      {| personImage := personImage s; clothingImage := clothingImage s;
         resultImage := resultImage s; isLoading := isLoading s;
         isRefining := isRefining s; error := error s;
         refinePrompt := v |}
  | read_file _ | call_performVirtualTryOn _ _ _ _
  | call_refineImage _ _ _ | console_error _ => s
  end.

Definition apply_effects (s : AppState) (es : list Effect) : AppState :=
  fold_left apply_effect es s.

(** Whether an effect reaches the generation client (and through it the
    network). *)
Definition is_client_call (e : Effect) : bool :=
  match e with
  | call_performVirtualTryOn _ _ _ _ | call_refineImage _ _ _ => true
  | _ => false
  end.

(** Whether an effect sets the loading flag. *)
Definition sets_loading (e : Effect) : bool :=
  match e with
  | setIsLoading _ => true
  | _ => false
  end.

(** *** A writer and exception monad for the body of an action *)

Definition W (A : Type) : Type := list Effect * (Thrown + A).

Definition ret {A : Type} (a : A) : W A := ([], inr a).

Definition throw {A : Type} (err : Thrown) : W A := ([], inl err).

Definition emit (e : Effect) : W unit := ([e], inr tt).

Definition bind {A B : Type} (c : W A) (k : A -> W B) : W B :=
  match c with
  | (es, inr a) => let (es', r) := k a in ((es ++ es')%list, r)
  | (es, inl err) => (es, inl err)
  end.

(** [try { c } catch (err) { h err } finally { f }] *)
Definition try_catch_finally (c : W unit) (h : Thrown -> W unit) (f : W unit)
  : W unit :=
  let caught :=
    match c with
    | (es, inr a) => (es, inr a)
    | (es, inl err) => let (es', r) := h err in ((es ++ es')%list, r)
    end in
  match caught, f with
  | (es, r), (es', inr _) => ((es ++ es')%list, r)
  | (es, _), (es', inl err) => ((es ++ es')%list, inl err)
  end.

Declare Scope action_scope.
Delimit Scope action_scope with action.
Notation "'let*' x ':=' c 'in' k" := (bind c (fun x => k))
  (at level 10, x name, c at level 100, k at level 200) : action_scope.
Notation "c ';;;' k" := (bind c (fun _ => k))
  (at level 100, k at level 200, right associativity) : action_scope.

(** [await] on a promise of known outcome. *)
Definition await {A : Type} (outcome : Thrown + A) : W A := ([], outcome).

(** [toBase64(file)] *)
Definition toBase64 (f : File) : W (option string) :=
  (emit (read_file f) ;;;
   match readAsDataURL f with
   | Loaded dataURL => ret (split_comma_1 dataURL)
   | LoadedNotString => throw (ErrorObject "Error" "Failed to read file as base64")
   | ReadFailed => throw OtherValue
   end)%action.

(** [err instanceof Error ? err.message : "An unknown error occurred."] *)
Definition errorMessage (err : Thrown) : string :=
  match err with
  | ErrorObject _ m => m
  | OtherValue => "An unknown error occurred."
  end.

Definition png_data_url (base64 : string) : string :=
  "data:image/png;base64," +:+ base64.

Definition handleVirtualTryOn (client : Client) (s : AppState) : W unit :=
  (match file <$> personImage s, file <$> clothingImage s with
   | Some personFile, Some clothingFile =>
       emit (setIsLoading true) ;;;
       emit (setError None) ;;;
       emit (setResultImage None) ;;;
       try_catch_finally
         (let* personBase64 := toBase64 personFile in
          let* clothingBase64 := toBase64 clothingFile in
          emit (call_performVirtualTryOn personBase64 clothingBase64
                  (type personFile) (type clothingFile)) ;;;
          let* result :=
            await (performVirtualTryOn client personBase64 clothingBase64
                     (type personFile) (type clothingFile)) in
          if truthy (imageBase64 result) then
            emit (setResultImage (Some (png_data_url (str (imageBase64 result)))))
          else
            throw (ErrorObject "Error"
              "The AI model did not return an image. Please try again with different images."))
         (fun err =>
            emit (console_error (errorMessage err)) ;;;
            emit (setError (Some ("Failed to generate image: " +:+ errorMessage err))))
         (emit (setIsLoading false))
   | _, _ =>
       emit (setError (Some "Please upload both a person and a clothing image."))
   end)%action.

Definition handleRefine (client : Client) (s : AppState) : W unit :=
  (if negb (truthy (resultImage s))
      || negb (truthy (Some (trim (refinePrompt s)))) then
     emit (setError (Some "Cannot refine without a result image and a prompt."))
   else
     emit (setIsRefining true) ;;;
     emit (setError None) ;;;
     try_catch_finally
       (let currentImageBase64 := split_comma_1 (str (resultImage s)) in
        emit (call_refineImage currentImageBase64 "image/png" (refinePrompt s)) ;;;
        let* result :=
          await (refineImage client currentImageBase64 "image/png"
                   (refinePrompt s)) in
        if truthy (imageBase64 result) then
          emit (setResultImage (Some (png_data_url (str (imageBase64 result))))) ;;;
          emit (setRefinePrompt EmptyString)
        else
          throw (ErrorObject "Error" "The AI model did not return a refined image."))
       (fun err =>
          emit (console_error (errorMessage err)) ;;;
          emit (setError (Some ("Failed to refine image: " +:+ errorMessage err))))
       (emit (setIsRefining false))
   )%action.

Definition handleStartOver : W unit :=
  (emit (setPersonImage None) ;;;
   emit (setClothingImage None) ;;;
   emit (setResultImage None) ;;;
   emit (setError None) ;;;
   emit (setRefinePrompt EmptyString) ;;;
   emit (setIsLoading false) ;;;
   emit (setIsRefining false))%action.

(** The effects of an action, and the state the component is in after it. *)
Definition effects (action : W unit) : list Effect := fst action.

Definition state_after (action : W unit) (s : AppState) : AppState :=
  apply_effects s (effects action).

(** *** The rest of the component *)

(** The values the state hooks start with. *)
Definition initial : AppState :=
  {| personImage := None; clothingImage := None; resultImage := None;
     isLoading := false; isRefining := false; error := None;
     refinePrompt := EmptyString |}.

Inductive ImageKind : Type := person | clothing.

(** [handleImageUpload(file, type)]: when the reader ends with a string, the
    image of that kind becomes the file with its preview; when it does not,
    nothing is set. *)
Definition handleImageUpload (f : File) (kind : ImageKind) : W unit :=
  (emit (read_file f) ;;;
   match readAsDataURL f with
   | Loaded dataURL =>
       let imageData := {| preview := dataURL; file := f |} in
       match kind with
       | person => emit (setPersonImage (Some imageData))
       | clothing => emit (setClothingImage (Some imageData))
       end
   | LoadedNotString | ReadFailed => ret tt
   end)%action.

Definition is_null {A : Type} (v : option A) : bool :=
  match v with
  | Some _ => false
  | None => true
  end.

(** [!personImage || !clothingImage || isLoading]: the generate button is
    disabled. *)
Definition isButtonDisabled (s : AppState) : bool :=
  is_null (personImage s) || is_null (clothingImage s) || isLoading s.

(** [resultImage && !isLoading]: the result, the prompt field and the
    refine, download and start-over buttons are rendered. *)
Definition result_shown (s : AppState) : bool :=
  truthy (resultImage s) && negb (isLoading s).

(** [isRefining || !refinePrompt.trim()]: the refine button is disabled. *)
Definition refine_disabled (s : AppState) : bool :=
  isRefining s || negb (truthy (Some (trim (refinePrompt s)))).

(** The link [handleDownload] builds and clicks; nothing when there is no
    result image. *)
Record Anchor : Type := {
  href : string;
  download : string
}.

Definition handleDownload (s : AppState) : option Anchor :=
  if negb (truthy (resultImage s)) then None
  else Some {| href := str (resultImage s);
               download := "virtual-try-on-result.png" |}.

(** *** Notions the properties are stated with *)

(** A string of white space only (the empty string included). *)
Fixpoint blank (s : string) : bool :=
  match s with
  | EmptyString => true
  | String c rest => isWhiteSpace c && blank rest
  end.

(** A string without a comma. *)
Definition comma_free (s : string) : Prop := after_comma s = None.

(** The state the component is in when an action reaches the generation
    client for the first time; [None] when it never does. *)
Fixpoint state_at_call (s : AppState) (es : list Effect) : option AppState :=
  match es with
  | [] => None
  | e :: rest =>
      if is_client_call e then Some s
      else state_at_call (apply_effect s e) rest
  end.

(** The calls to the generation client among the effects, in order. *)
Definition client_calls (es : list Effect) : list Effect :=
  filter (fun e => is_client_call e = true) es.

(** A file whose read ends with a string. *)
Definition readable (f : File) : bool :=
  match readAsDataURL f with
  | Loaded _ => true
  | LoadedNotString | ReadFailed => false
  end.

(** The effects of an action up to and with its first call to the client,
    and the effects after the call has settled. *)
Fixpoint split_at_call (es : list Effect) : list Effect * list Effect :=
  match es with
  | [] => ([], [])
  | e :: rest =>
      if is_client_call e then ([e], rest)
      else let (before, after) := split_at_call rest in (e :: before, after)
  end.

(** The state after an action, when another action ran from start to end
    while the first one was waiting for the client. *)
Definition state_after_interleaved (action other : W unit) (s : AppState)
  : AppState :=
  let (before, after) := split_at_call (effects action) in
  apply_effects (apply_effects (apply_effects s before) (effects other)) after.

End App.

(** ** Sample inputs
    Concrete processes, requests and states, used to run the models. *)

Module Samples.
Import JS.

(** A platform for the proxy: the request body is carried as its JSON text,
    and a body is decoded byte by byte. *)
Definition stringify (b : string) (space : nat) : string := b.
Definition decode (bytes : list byte) : string := string_of_list_byte bytes.

Definition configured : gmap string string :=
  <["GEMINI_API_URL" := "https://upstream.example/generate"]>
    (<["GEMINI_API_KEY" := "secret"]> ∅).

Definition url_only : gmap string string :=
  <["GEMINI_API_URL" := "https://upstream.example/generate"]> ∅.

Definition answering (env : gmap string string) (r : Proxy.Response)
  : Proxy.Process :=
  {| Proxy.env := env; Proxy.fetch := fun _ _ => Proxy.Resolves r |}.

Definition post : Proxy.IncomingRequest string :=
  {| Proxy.method := "POST"; Proxy.req_body := "{}" |}.

Definition get : Proxy.IncomingRequest string :=
  {| Proxy.method := "GET"; Proxy.req_body := EmptyString |}.

Definition some_bytes : list byte := [x7b; x7d].

Definition too_many_requests : Proxy.Response :=
  {| Proxy.status := 429;
     Proxy.headers := <["content-type" := "application/json"]> ∅;
     Proxy.body := Some some_bytes |}.

Definition png_reply : Proxy.Response :=
  {| Proxy.status := 200;
     Proxy.headers := <["content-type" := "image/png"]> ∅;
     Proxy.body := Some some_bytes |}.

Definition empty_type_reply : Proxy.Response :=
  {| Proxy.status := 200;
     Proxy.headers := <["content-type" := EmptyString]> ∅;
     Proxy.body := Some some_bytes |}.

Definition untyped_reply : Proxy.Response :=
  {| Proxy.status := 200; Proxy.headers := ∅; Proxy.body := Some some_bytes |}.

(** A page with an API key, and a provider that answers every call alike. *)
Definition keyed : gmap string string := <["API_KEY" := "key"]> ∅.

Definition provider (env : gmap string string)
    (response : GeminiService.GenerateContentResponse) : GeminiService.Process :=
  {| GeminiService.env := env;
     GeminiService.generateContent := fun _ _ => GeminiService.Resolves response |}.

Definition one_candidate (ps : list GeminiService.Part)
  : GeminiService.GenerateContentResponse :=
  {| GeminiService.candidates :=
       Some [ {| GeminiService.content :=
                   Some {| GeminiService.parts := Some ps |} |} ] |}.

Definition image_and_text : GeminiService.GenerateContentResponse :=
  one_candidate [GeminiService.image_part "QUJD" "image/png";
                 GeminiService.text_part "done"].

Definition two_images : GeminiService.GenerateContentResponse :=
  one_candidate [GeminiService.image_part "Zmlyc3Q=" "image/png";
                 GeminiService.image_part "bGFzdA==" "image/png"].

(** States of the component, and clients of known outcome. *)
Definition photo : App.File :=
  {| App.type := "image/jpeg";
     App.readAsDataURL := App.Loaded "data:image/jpeg;base64,cGVyc29u" |}.

Definition uploaded : App.ImageState :=
  {| App.preview := "data:image/jpeg;base64,cGVyc29u"; App.file := photo |}.

Definition person_only : App.AppState :=
  {| App.personImage := Some uploaded; App.clothingImage := None;
     App.resultImage := None; App.isLoading := false;
     App.isRefining := false; App.error := None;
     App.refinePrompt := EmptyString |}.

Definition with_result : App.AppState :=
  {| App.personImage := Some uploaded; App.clothingImage := Some uploaded;
     App.resultImage := Some "data:image/png;base64,QUJD";
     App.isLoading := false; App.isRefining := false; App.error := None;
     App.refinePrompt := "make the sleeves shorter" |}.

Definition returning (image : option string) : App.Client :=
  {| App.performVirtualTryOn := fun _ _ _ _ =>
       inr {| GeminiService.imageBase64 := image; GeminiService.text := None |};
     App.refineImage := fun _ _ _ =>
       inr {| GeminiService.imageBase64 := image; GeminiService.text := None |} |}.

Definition failing (err : Thrown) : App.Client :=
  {| App.performVirtualTryOn := fun _ _ _ _ => inl err;
     App.refineImage := fun _ _ _ => inl err |}.

(** A network that is down, and a provider that rejects every call. *)
Definition unreachable (env : gmap string string) (err : Thrown)
  : Proxy.Process :=
  {| Proxy.env := env; Proxy.fetch := fun _ _ => Proxy.Rejects err |}.

Definition bad_gateway : Proxy.Response :=
  {| Proxy.status := 502;
     Proxy.headers := <["content-type" := "text/html"]> ∅;
     Proxy.body := Some some_bytes |}.

Definition rejecting (env : gmap string string) (err : Thrown)
  : GeminiService.Process :=
  {| GeminiService.env := env;
     GeminiService.generateContent := fun _ _ => GeminiService.Rejects err |}.

Definition empty_key : gmap string string := <["API_KEY" := EmptyString]> ∅.

(** A candidate that was stopped before it produced any content. *)
Definition blocked : GeminiService.GenerateContentResponse :=
  {| GeminiService.candidates := Some [ {| GeminiService.content := None |} ] |}.

Definition text_then_image : GeminiService.GenerateContentResponse :=
  one_candidate [GeminiService.text_part "done";
                 GeminiService.image_part "QUJD" "image/png"].

(** More states of the component. *)
Definition garment : App.File :=
  {| App.type := "image/png";
     App.readAsDataURL := App.Loaded "data:image/png;base64,Y2xvdGg=" |}.

Definition broken_file : App.File :=
  {| App.type := "image/png"; App.readAsDataURL := App.ReadFailed |}.

Definition both_uploaded : App.AppState :=
  {| App.personImage := Some uploaded;
     App.clothingImage :=
       Some {| App.preview := "data:image/png;base64,Y2xvdGg=";
               App.file := garment |};
     App.resultImage := None; App.isLoading := false;
     App.isRefining := false; App.error := None;
     App.refinePrompt := EmptyString |}.

Definition broken_person : App.AppState :=
  {| App.personImage :=
       Some {| App.preview := EmptyString; App.file := broken_file |};
     App.clothingImage := Some uploaded;
     App.resultImage := None; App.isLoading := false;
     App.isRefining := false; App.error := None;
     App.refinePrompt := EmptyString |}.

Definition blank_prompt : App.AppState :=
  {| App.personImage := Some uploaded; App.clothingImage := Some uploaded;
     App.resultImage := Some "data:image/png;base64,QUJD";
     App.isLoading := false; App.isRefining := false; App.error := None;
     App.refinePrompt := "   " |}.

End Samples.

(** * Properties *)

Module JSFacts.
Import JS.

Lemma truthy_Some (v : option string) :
  truthy v = true -> exists s, v = Some s /\ s <> EmptyString.
Proof.
  destruct v as [s|]; simpl; [|discriminate].
  intros H. exists s. split; [reflexivity|].
  apply negb_true_iff in H. now apply String.eqb_neq in H.
Qed.

Lemma truthy_nonempty (s : string) :
  s <> EmptyString -> truthy (Some s) = true.
Proof.
  intros H. simpl. apply negb_true_iff. now apply String.eqb_neq.
Qed.

Lemma or_else_nonempty (s d : string) :
  s <> EmptyString -> or_else (Some s) d = s.
Proof.
  intros H. simpl. apply String.eqb_neq in H. now rewrite H.
Qed.

Lemma unset_or_empty_falsy (v : option string) :
  unset_or_empty v <-> truthy v = false.
Proof.
  split.
  - intros [-> | ->]; reflexivity.
  - destruct v as [s|]; [|now left]. simpl. intros H.
    apply negb_false_iff, String.eqb_eq in H. subst. now right.
Qed.

End JSFacts.

(** ** The proxy handler *)

Module ProxyFacts.
Import JS JSFacts Proxy.

Section Handler.

Variable Body : Type.
Variable JSON_stringify : Body -> nat -> string.
Variable utf8_decode : list byte -> string.

Abbreviation run := (Proxy.run Body JSON_stringify utf8_decode).
Abbreviation upstream_request :=
  (Proxy.upstream_request Body JSON_stringify).

Ltac step :=
  cbv [Proxy.handler Proxy.run Proxy.handler_unlimited Proxy.run_unlimited
       try_catch bind ret throw modify
       with_res res_setHeader res_status res_finish res_end
       res_json res_send console_write call_fetch
       limiter_schedule consume_body arrayBuffer Proxy.text
       init_st init_res fst snd res console upstream bodyUsed
       statusCode res_headers sent str default from_option id app
       negb orb].

(** A request that is not a POST is answered at once. *)
Lemma run_not_post (process : Process) (req : IncomingRequest Body) :
  method Body req <> "POST" ->
  run process req =
    {| res := {| statusCode := 405;
                 res_headers := <["Allow" := "POST"]> ∅;
                 sent := Some (EndText "Method Not Allowed") |};
       console := []; upstream := []; bodyUsed := false |}.
Proof.
  intros H. apply String.eqb_neq in H. step. rewrite H. reflexivity.
Qed.

(** A POST in a process that lacks a setting is answered without a call. *)
Lemma run_not_configured (process : Process) (req : IncomingRequest Body) :
  method Body req = "POST" ->
  truthy (env process !! "GEMINI_API_URL") = false
  \/ truthy (env process !! "GEMINI_API_KEY") = false ->
  run process req =
    {| res := {| statusCode := 500; res_headers := ∅;
                 sent := Some (Json [("error",
                          "Missing GEMINI_API_URL or GEMINI_API_KEY")]) |};
       console := []; upstream := []; bodyUsed := false |}.
Proof.
  intros Hm Hcfg. step. rewrite Hm.
  destruct Hcfg as [H | H]; rewrite H.
  - reflexivity.
  - destruct (truthy (env process !! "GEMINI_API_URL")); reflexivity.
Qed.

(** A configured POST reaches the upstream once, with the configured URL
    and the bearer token, and an answer in the 200 range is relayed. *)
Lemma run_relayed (process : Process) (req : IncomingRequest Body)
    (url key : string) (r : Response) :
  method Body req = "POST" ->
  set_to (env process !! "GEMINI_API_URL") url ->
  set_to (env process !! "GEMINI_API_KEY") key ->
  fetch process url (upstream_request key req) = Resolves r ->
  ok r = true ->
  res (run process req) =
    {| statusCode := status r;
       res_headers :=
         <["Content-Type" :=
             or_else (headers r !! "content-type") "application/json"]> ∅;
       sent := Some (Buffer_from (bytes_of r)) |}
  /\ upstream (run process req) = [(url, upstream_request key req)].
Proof.
  intros Hm [Hu Hu'] [Hk Hk'] Hf Hok.
  assert (H429 : (status r =? 429) = false).
  { unfold ok in Hok. apply andb_true_iff in Hok as [_ Hle].
    apply Z.leb_le in Hle. apply Z.eqb_neq. lia. }
  assert (Htu : truthy (env process !! "GEMINI_API_URL") = true)
    by (rewrite Hu; now apply truthy_nonempty).
  assert (Htk : truthy (env process !! "GEMINI_API_KEY") = true)
    by (rewrite Hk; now apply truthy_nonempty).
  step. rewrite Hm, Htu, Htk, Hu, Hk. step. rewrite Hf.
  unfold bytes_of.
  destruct (body r) as [bytes|]; step; rewrite H429, Hok; step;
    split; reflexivity.
Qed.

(** An answer outside the 200 range whose body is a stream: the body was
    read by [arrayBuffer] before the status is looked at, the read by [text]
    is rejected, and the rejection is caught as a server error. *)
Lemma run_body_read_twice (process : Process) (req : IncomingRequest Body)
    (url key : string) (r : Response) (bytes : list byte) :
  method Body req = "POST" ->
  set_to (env process !! "GEMINI_API_URL") url ->
  set_to (env process !! "GEMINI_API_KEY") key ->
  fetch process url (upstream_request key req) = Resolves r ->
  ok r = false ->
  body r = Some bytes ->
  res (run process req) =
    {| statusCode := 500; res_headers := ∅;
       sent := Some (Json (error_envelope "Server error" (Some body_unusable))) |}.
Proof.
  intros Hm [Hu Hu'] [Hk Hk'] Hf Hok Hb.
  assert (Htu : truthy (env process !! "GEMINI_API_URL") = true)
    by (rewrite Hu; now apply truthy_nonempty).
  assert (Htk : truthy (env process !! "GEMINI_API_KEY") = true)
    by (rewrite Hk; now apply truthy_nonempty).
  step. rewrite Hm, Htu, Htk, Hu, Hk. step. rewrite Hf. step.
  rewrite Hb. step. rewrite Hok.
  destruct (status r =? 429); step; rewrite ?Hb; reflexivity.
Qed.

(** A 429 with a null body: both reads give nothing, and the quota reply is
    sent. *)
Lemma run_quota_null_body (process : Process) (req : IncomingRequest Body)
    (url key : string) (r : Response) :
  method Body req = "POST" ->
  set_to (env process !! "GEMINI_API_URL") url ->
  set_to (env process !! "GEMINI_API_KEY") key ->
  fetch process url (upstream_request key req) = Resolves r ->
  status r = 429 ->
  body r = None ->
  res (run process req) =
    {| statusCode := 429; res_headers := ∅;
       sent := Some (Json (error_envelope quota_exceeded
                             (Some (utf8_decode [])))) |}.
Proof.
  intros Hm [Hu Hu'] [Hk Hk'] Hf Hs Hb.
  assert (Htu : truthy (env process !! "GEMINI_API_URL") = true)
    by (rewrite Hu; now apply truthy_nonempty).
  assert (Htk : truthy (env process !! "GEMINI_API_KEY") = true)
    by (rewrite Hk; now apply truthy_nonempty).
  step. rewrite Hm, Htu, Htk, Hu, Hk. step. rewrite Hf. step.
  rewrite Hb. step. rewrite Hs. step. rewrite ?Hb. reflexivity.
Qed.

(** The variant without the status branches reads the body once and relays
    any answer, a 429 included, with its status and its bytes. *)
Lemma run_unlimited_relays (process : Process) (req : IncomingRequest Body)
    (url key : string) (r : Response) :
  method Body req = "POST" ->
  set_to (env process !! "GEMINI_API_URL") url ->
  set_to (env process !! "GEMINI_API_KEY") key ->
  fetch process url (upstream_request key req) = Resolves r ->
  res (Proxy.run_unlimited Body JSON_stringify process req) =
    {| statusCode := status r;
       res_headers :=
         <["Content-Type" :=
             or_else (headers r !! "content-type") "application/json"]> ∅;
       sent := Some (Buffer_from (bytes_of r)) |}.
Proof.
  intros Hm [Hu Hu'] [Hk Hk'] Hf.
  assert (Htu : truthy (env process !! "GEMINI_API_URL") = true)
    by (rewrite Hu; now apply truthy_nonempty).
  assert (Htk : truthy (env process !! "GEMINI_API_KEY") = true)
    by (rewrite Hk; now apply truthy_nonempty).
  step. rewrite Hm, Htu, Htk, Hu, Hk. step. rewrite Hf.
  unfold bytes_of. destruct (body r) as [bytes|]; reflexivity.
Qed.

(** C4. A request whose method is not POST is answered with status 405 and
    the header Allow set to POST: the response is ended, with the text
    Method Not Allowed, and the upstream is not called. *)
Theorem handler_rejects_other_methods
    (process : Process) (req : IncomingRequest Body) :
  method Body req <> "POST" ->
  statusCode (res (run process req)) = 405
  /\ res_headers (res (run process req)) !! "Allow" = Some "POST"
  /\ sent (res (run process req)) = Some (EndText "Method Not Allowed")
  /\ upstream (run process req) = [].
Proof.
  intros H. rewrite (run_not_post process req H).
  cbn [res statusCode res_headers sent upstream].
  split; [reflexivity | split; [apply lookup_insert_eq | split; reflexivity]].
Qed.

(** C5. A POST in a process where GEMINI_API_URL or GEMINI_API_KEY is unset
    or empty is answered with status 500 and an error body, and no upstream
    call is made. *)
Theorem handler_needs_configuration
    (process : Process) (req : IncomingRequest Body) :
  method Body req = "POST" ->
  unset_or_empty (env process !! "GEMINI_API_URL")
  \/ unset_or_empty (env process !! "GEMINI_API_KEY") ->
  statusCode (res (run process req)) = 500
  /\ sent (res (run process req)) =
       Some (Json [("error", "Missing GEMINI_API_URL or GEMINI_API_KEY")])
  /\ upstream (run process req) = [].
Proof.
  intros Hm Hcfg.
  rewrite (run_not_configured process req Hm).
  - repeat split.
  - destruct Hcfg as [H | H]; apply unset_or_empty_falsy in H; auto.
Qed.

(** C3, as the handler has it. When both settings are present and the
    upstream answers the call with status 200, body bytes B and a content
    type T that is not the empty string, the proxy answers with status 200,
    content type T and exactly the bytes B. *)
Theorem handler_relays_success
    (process : Process) (req : IncomingRequest Body)
    (url key : string) (r : Response) (T : string) :
  method Body req = "POST" ->
  set_to (env process !! "GEMINI_API_URL") url ->
  set_to (env process !! "GEMINI_API_KEY") key ->
  fetch process url (upstream_request key req) = Resolves r ->
  status r = 200 ->
  headers r !! "content-type" = Some T ->
  T <> EmptyString ->
  statusCode (res (run process req)) = 200
  /\ res_headers (res (run process req)) !! "Content-Type" = Some T
  /\ sent (res (run process req)) = Some (Buffer_from (bytes_of r)).
Proof.
  intros Hm Hu Hk Hf Hs HT Hne.
  assert (Hok : ok r = true) by (unfold ok; rewrite Hs; reflexivity).
  destruct (run_relayed process req url key r Hm Hu Hk Hf Hok) as [-> _].
  cbn [statusCode res_headers sent]. rewrite HT, (or_else_nonempty T _ Hne).
  split; [exact Hs | split; [apply lookup_insert_eq | reflexivity]].
Qed.

(** C10. When the upstream's answer carries no content-type header and is
    relayed (its status is in the 200 range), the relayed response has
    Content-Type set to application/json. *)
Theorem handler_defaults_content_type
    (process : Process) (req : IncomingRequest Body)
    (url key : string) (r : Response) :
  method Body req = "POST" ->
  set_to (env process !! "GEMINI_API_URL") url ->
  set_to (env process !! "GEMINI_API_KEY") key ->
  fetch process url (upstream_request key req) = Resolves r ->
  ok r = true ->
  headers r !! "content-type" = None ->
  res_headers (res (run process req)) !! "Content-Type" = Some "application/json"
  /\ statusCode (res (run process req)) = status r
  /\ sent (res (run process req)) = Some (Buffer_from (bytes_of r)).
Proof.
  intros Hm Hu Hk Hf Hok Hnone.
  destruct (run_relayed process req url key r Hm Hu Hk Hf Hok) as [-> _].
  cbn [statusCode res_headers sent]. rewrite Hnone. cbn [or_else].
  split; [apply lookup_insert_eq | split; reflexivity].
Qed.

(** *** Further properties of the two variants *)

(** X1. Whatever the request, the environment and the upstream do, the
    handler ends with a response sent. *)
Theorem handler_always_answers (process : Process) (req : IncomingRequest Body) :
  is_Some (sent (res (run process req))).
Proof.
  step.
  destruct (String.eqb (method Body req) "POST"); step; [|eexists; reflexivity].
  destruct (truthy (env process !! "GEMINI_API_URL")); step;
    [|eexists; reflexivity].
  destruct (truthy (env process !! "GEMINI_API_KEY")); step;
    [|eexists; reflexivity].
  destruct (fetch process _ _) as [r | err]; step; [|eexists; reflexivity].
  destruct (body r) as [bytes|]; step;
    destruct (status r =? 429); step; try (eexists; reflexivity);
    destruct (ok r); step; eexists; reflexivity.
Qed.

(** X2. The handler calls the upstream at most once, and only for a POST in
    a configured process; the call goes to GEMINI_API_URL and carries the
    bearer token made of GEMINI_API_KEY and the stringified request body. *)
Theorem handler_upstream_calls (process : Process) (req : IncomingRequest Body) :
  upstream (run process req) = []
  \/ exists url key,
       method Body req = "POST"
       /\ set_to (env process !! "GEMINI_API_URL") url
       /\ set_to (env process !! "GEMINI_API_KEY") key
       /\ upstream (run process req) = [(url, upstream_request key req)].
Proof.
  destruct (String.eqb (method Body req) "POST") eqn:Hm.
  2:{ left. apply String.eqb_neq in Hm. now rewrite (run_not_post process req Hm). }
  apply String.eqb_eq in Hm.
  destruct (truthy (env process !! "GEMINI_API_URL")) eqn:Htu.
  2:{ left. rewrite (run_not_configured process req Hm); auto. }
  destruct (truthy (env process !! "GEMINI_API_KEY")) eqn:Htk.
  2:{ left. rewrite (run_not_configured process req Hm); auto. }
  destruct (truthy_Some _ Htu) as (url & Hu & Hu').
  destruct (truthy_Some _ Htk) as (key & Hk & Hk').
  right. exists url, key. repeat split; try assumption.
  step. rewrite Hm, Htu, Htk, Hu, Hk. step.
  destruct (fetch process url _) as [r | err]; step; [|reflexivity].
  destruct (body r) as [bytes|]; step;
    destruct (status r =? 429); step; try reflexivity;
    destruct (ok r); reflexivity.
Qed.

(** X3. When the upstream call is rejected, the handler answers with status
    500 and the envelope of a server error whose details are the message of
    what was thrown. *)
Theorem handler_reports_rejected_fetch
    (process : Process) (req : IncomingRequest Body)
    (url key : string) (err : Thrown) :
  method Body req = "POST" ->
  set_to (env process !! "GEMINI_API_URL") url ->
  set_to (env process !! "GEMINI_API_KEY") key ->
  fetch process url (upstream_request key req) = Rejects err ->
  res (run process req) =
    {| statusCode := 500; res_headers := ∅;
       sent := Some (Json (error_envelope "Server error" (message err))) |}
  /\ console (run process req) =
       [Log "Incoming request body for Gemini API:"
            (JSON_stringify (req_body Body req) 2);
        ErrorThrown "Proxy error:" err].
Proof.
  intros Hm [Hu Hu'] [Hk Hk'] Hf.
  assert (Htu : truthy (env process !! "GEMINI_API_URL") = true)
    by (rewrite Hu; now apply truthy_nonempty).
  assert (Htk : truthy (env process !! "GEMINI_API_KEY") = true)
    by (rewrite Hk; now apply truthy_nonempty).
  step. rewrite Hm, Htu, Htk, Hu, Hk. step. rewrite Hf.
  split; reflexivity.
Qed.

(** X4. An upstream answer outside the 200 range that has a body never
    reaches the caller of the rate-limited handler: neither its status nor
    its text is passed on, the answer is status 500 with the envelope of a
    server error, and no Content-Type is set by the handler. *)
Theorem handler_turns_error_answers_into_500
    (process : Process) (req : IncomingRequest Body)
    (url key : string) (r : Response) (bytes : list byte) :
  method Body req = "POST" ->
  set_to (env process !! "GEMINI_API_URL") url ->
  set_to (env process !! "GEMINI_API_KEY") key ->
  fetch process url (upstream_request key req) = Resolves r ->
  ok r = false ->
  body r = Some bytes ->
  statusCode (res (run process req)) = 500
  /\ sent (res (run process req)) =
       Some (Json [("error", "Server error"); ("details", body_unusable)])
  /\ res_headers (res (run process req)) !! "Content-Type" = None.
Proof.
  intros Hm Hu Hk Hf Hok Hb.
  rewrite (run_body_read_twice process req url key r bytes Hm Hu Hk Hf Hok Hb).
  repeat split.
Qed.

(** X5. When the upstream only gives answers in the 200 range, the two
    variants of the handler send the same response. *)
Theorem variants_agree_on_success
    (process : Process) (req : IncomingRequest Body) :
  (forall url init r, fetch process url init = Resolves r -> ok r = true) ->
  res (run process req) =
  res (Proxy.run_unlimited Body JSON_stringify process req).
Proof.
  intros Hall. step.
  destruct (String.eqb (method Body req) "POST"); step; [|reflexivity].
  destruct (truthy (env process !! "GEMINI_API_URL")); step; [|reflexivity].
  destruct (truthy (env process !! "GEMINI_API_KEY")); step; [|reflexivity].
  destruct (fetch process _ _) as [r | err] eqn:Hf; step; [|reflexivity].
  assert (Hok : ok r = true) by (eapply Hall; exact Hf).
  assert (H429 : (status r =? 429) = false).
  { unfold ok in Hok. apply andb_true_iff in Hok as [_ Hle].
    apply Z.leb_le in Hle. apply Z.eqb_neq. lia. }
  destruct (body r) as [bytes|]; step; rewrite H429, Hok; reflexivity.
Qed.

(** X6. The variant without the status branches relays every answer of the
    upstream, whatever its status: the status, the content type (or the
    default) and the bytes of the body. *)
Theorem unlimited_relays_every_status
    (process : Process) (req : IncomingRequest Body)
    (url key : string) (r : Response) :
  method Body req = "POST" ->
  set_to (env process !! "GEMINI_API_URL") url ->
  set_to (env process !! "GEMINI_API_KEY") key ->
  fetch process url (upstream_request key req) = Resolves r ->
  statusCode (res (Proxy.run_unlimited Body JSON_stringify process req))
    = status r
  /\ res_headers (res (Proxy.run_unlimited Body JSON_stringify process req))
       !! "Content-Type"
     = Some (or_else (headers r !! "content-type") "application/json")
  /\ sent (res (Proxy.run_unlimited Body JSON_stringify process req))
     = Some (Buffer_from (bytes_of r)).
Proof.
  intros Hm Hu Hk Hf.
  rewrite (run_unlimited_relays process req url key r Hm Hu Hk Hf).
  cbn [statusCode res_headers sent].
  split; [reflexivity | split; [apply lookup_insert_eq | reflexivity]].
Qed.

End Handler.

(** *** The handler on the sample inputs *)

Import Samples.

Abbreviation sample_run := (Proxy.run string stringify decode).

Lemma configured_url :
  set_to (configured !! "GEMINI_API_URL") "https://upstream.example/generate".
Proof. split; [reflexivity | discriminate]. Qed.

Lemma configured_key : set_to (configured !! "GEMINI_API_KEY") "secret".
Proof. split; [reflexivity | discriminate]. Qed.

(** C1, on the code. The upstream answers a configured POST with status 429
    and a body. The handler answers with status 500 and the envelope of a
    server error, not with status 429 and the quota message: the body it
    read with [arrayBuffer] cannot be read again by [text]. *)
Theorem quota_answer_ends_as_server_error :
  statusCode (res (sample_run (answering configured too_many_requests) post)) = 500
  /\ sent (res (sample_run (answering configured too_many_requests) post)) =
       Some (Json [("error", "Server error"); ("details", body_unusable)])
  /\ length (upstream (sample_run (answering configured too_many_requests) post)) = 1%nat.
Proof. vm_compute. repeat split. Qed.

Lemma handler_rejects_other_methods_witness :
  statusCode (res (sample_run (answering configured png_reply) get)) = 405
  /\ res_headers (res (sample_run (answering configured png_reply) get)) !! "Allow"
     = Some "POST"
  /\ sent (res (sample_run (answering configured png_reply) get))
     = Some (EndText "Method Not Allowed")
  /\ upstream (sample_run (answering configured png_reply) get) = [].
Proof.
  apply (handler_rejects_other_methods string stringify decode). discriminate.
Defined.

Lemma handler_needs_configuration_witness :
  statusCode (res (sample_run (answering url_only png_reply) post)) = 500
  /\ sent (res (sample_run (answering url_only png_reply) post)) =
       Some (Json [("error", "Missing GEMINI_API_URL or GEMINI_API_KEY")])
  /\ upstream (sample_run (answering url_only png_reply) post) = [].
Proof.
  apply (handler_needs_configuration string stringify decode).
  - reflexivity.
  - right. left. reflexivity.
Defined.

Lemma handler_relays_success_witness :
  statusCode (res (sample_run (answering configured png_reply) post)) = 200
  /\ res_headers (res (sample_run (answering configured png_reply) post))
       !! "Content-Type" = Some "image/png"
  /\ sent (res (sample_run (answering configured png_reply) post)) =
       Some (Buffer_from some_bytes).
Proof.
  apply (handler_relays_success string stringify decode
           (answering configured png_reply) post
           "https://upstream.example/generate" "secret" png_reply "image/png").
  - reflexivity.
  - exact configured_url.
  - exact configured_key.
  - reflexivity.
  - reflexivity.
  - reflexivity.
  - discriminate.
Defined.

(** C3, as stated, fails on an empty content type: the upstream answers 200
    with the content-type header set to the empty string, and the proxy
    answers with Content-Type application/json. *)
Lemma empty_content_type_not_relayed :
  Proxy.status empty_type_reply = 200
  /\ Proxy.headers empty_type_reply !! "content-type" = Some EmptyString
  /\ res_headers (res (sample_run (answering configured empty_type_reply) post))
       !! "Content-Type" = Some "application/json"
  /\ res_headers (res (sample_run (answering configured empty_type_reply) post))
       !! "Content-Type" <> Some EmptyString.
Proof. repeat split; try reflexivity. vm_compute. discriminate. Qed.

Lemma handler_defaults_content_type_witness :
  res_headers (res (sample_run (answering configured untyped_reply) post))
    !! "Content-Type" = Some "application/json"
  /\ statusCode (res (sample_run (answering configured untyped_reply) post)) = 200
  /\ sent (res (sample_run (answering configured untyped_reply) post)) =
       Some (Buffer_from some_bytes).
Proof.
  apply (handler_defaults_content_type string stringify decode
           (answering configured untyped_reply) post
           "https://upstream.example/generate" "secret" untyped_reply).
  - reflexivity.
  - exact configured_url.
  - exact configured_key.
  - reflexivity.
  - reflexivity.
  - reflexivity.
Defined.

Lemma handler_reports_rejected_fetch_witness :
  res (sample_run (unreachable configured (ErrorObject "TypeError" "fetch failed"))
         post) =
    {| statusCode := 500; res_headers := ∅;
       sent := Some (Json [("error", "Server error");
                           ("details", "fetch failed")]) |}.
Proof.
  apply (handler_reports_rejected_fetch string stringify decode
           (unreachable configured (ErrorObject "TypeError" "fetch failed")) post
           "https://upstream.example/generate" "secret"
           (ErrorObject "TypeError" "fetch failed")).
  - reflexivity.
  - exact configured_url.
  - exact configured_key.
  - reflexivity.
Defined.

Lemma handler_turns_error_answers_into_500_witness :
  statusCode (res (sample_run (answering configured bad_gateway) post)) = 500.
Proof.
  apply (handler_turns_error_answers_into_500 string stringify decode
           (answering configured bad_gateway) post
           "https://upstream.example/generate" "secret" bad_gateway some_bytes).
  - reflexivity.
  - exact configured_url.
  - exact configured_key.
  - reflexivity.
  - reflexivity.
  - reflexivity.
Defined.

Lemma variants_agree_on_success_witness :
  res (sample_run (answering configured png_reply) post) =
  res (Proxy.run_unlimited string stringify (answering configured png_reply) post).
Proof.
  apply (variants_agree_on_success string stringify decode
           (answering configured png_reply) post).
  intros url init r H. injection H as <-. reflexivity.
Defined.

Lemma unlimited_relays_every_status_witness :
  statusCode (res (Proxy.run_unlimited string stringify
                     (answering configured too_many_requests) post)) = 429
  /\ res_headers (res (Proxy.run_unlimited string stringify
                         (answering configured too_many_requests) post))
       !! "Content-Type" = Some "application/json"
  /\ sent (res (Proxy.run_unlimited string stringify
                  (answering configured too_many_requests) post))
     = Some (Buffer_from some_bytes).
Proof.
  apply (unlimited_relays_every_status string stringify
           (answering configured too_many_requests) post
           "https://upstream.example/generate" "secret" too_many_requests).
  - reflexivity.
  - exact configured_url.
  - exact configured_key.
  - reflexivity.
Defined.

End ProxyFacts.

(** ** The generation client *)

Module GeminiServiceFacts.
Import JS JSFacts GeminiService.

(** The loop keeps the payload of the last part that carries [inlineData]. *)
Lemma scan_parts_image (ps : list Part) (acc : GenerationResult) :
  imageBase64 (fold_left scan_part ps acc) =
    match last_inlineData ps with
    | Some d => Some d
    | None => imageBase64 acc
    end.
Proof.
  revert acc. induction ps as [|p ps IH]; intros acc; [reflexivity|].
  cbn [fold_left]. rewrite IH. unfold last_inlineData, scan_part.
  cbn [omap list_omap]. fold (omap (fun q => data <$> inlineData q) ps).
  destruct (inlineData p) as [blob|]; cbn [fmap option_fmap option_map].
  - rewrite last_cons.
    destruct (last (omap (fun q => data <$> inlineData q) ps)); reflexivity.
  - destruct (last (omap (fun q => data <$> inlineData q) ps)); [reflexivity|].
    destruct (truthy (part_text p)); reflexivity.
Qed.

(** What a part contributes to the text is what [text_only] says. *)
Lemma scan_part_text (acc : GenerationResult) (p : Part) :
  text (scan_part acc p) =
    match text_only p with
    | Some t => Some t
    | None => text acc
    end.
Proof.
  unfold scan_part, text_only.
  destruct (inlineData p) as [blob|]; [reflexivity|].
  destruct (part_text p) as [t|]; cbn [truthy]; [|reflexivity].
  destruct (String.eqb t EmptyString); reflexivity.
Qed.

(** The loop keeps the last text among the parts that carry no
    [inlineData] and whose text is not empty. *)
Lemma scan_parts_text (ps : list Part) (acc : GenerationResult) :
  text (fold_left scan_part ps acc) =
    match last_text ps with
    | Some t => Some t
    | None => text acc
    end.
Proof.
  revert acc. induction ps as [|p ps IH]; intros acc; [reflexivity|].
  cbn [fold_left]. rewrite IH, scan_part_text. unfold last_text.
  cbn [omap list_omap]. fold (omap text_only ps).
  destruct (text_only p) as [t|].
  - rewrite last_cons. destruct (last (omap text_only ps)); reflexivity.
  - destruct (last (omap text_only ps)); reflexivity.
Qed.

Lemma last_inlineData_absent (ps : list Part) :
  Forall (fun p => inlineData p = None) ps -> last_inlineData ps = None.
Proof.
  unfold last_inlineData. induction 1 as [|p ps Hp _ IH]; [reflexivity|].
  cbn [omap list_omap]. rewrite Hp. exact IH.
Qed.

Lemma last_text_absent (ps : list Part) :
  Forall (fun p => part_text p = None) ps -> last_text ps = None.
Proof.
  unfold last_text. induction 1 as [|p ps Hp _ IH]; [reflexivity|].
  cbn [omap list_omap]. unfold text_only at 1. rewrite Hp.
  destruct (inlineData p); exact IH.
Qed.

(** With an API key and a provider that answers, an operation makes one call
    and ends as the reading of the answer does. *)
Lemma generate_resolved (process : Process) (key : string)
    (request_parts : list Part) (response : GenerateContentResponse) :
  set_to (env process !! "API_KEY") key ->
  (forall params, generateContent process key params = Resolves response) ->
  snd (generate process request_parts) = read_response response
  /\ length (fst (generate process request_parts)) = 1%nat.
Proof.
  intros [Hk Hne] Hanswer. unfold generate.
  rewrite Hk, (truthy_nonempty key Hne). cbn [negb str default from_option id].
  rewrite Hanswer. split; reflexivity.
Qed.

(** What [read_response] finds in a first candidate that has parts. *)
Lemma read_first_candidate (response : GenerateContentResponse)
    (first : Candidate) (others : list Candidate) (ps : list Part) :
  candidates response = Some (first :: others) ->
  parts_of first = Some ps ->
  read_response response =
    inr {| imageBase64 := last_inlineData ps; text := last_text ps |}.
Proof.
  intros H Hps. unfold read_response, parts_of in *. rewrite H.
  destruct (content first) as [c|]; [|discriminate]. rewrite Hps.
  f_equal.
  pose proof (scan_parts_image ps nothing) as Himg.
  pose proof (scan_parts_text ps nothing) as Htxt.
  destruct (fold_left scan_part ps nothing) as [i t].
  cbn [imageBase64 text nothing] in Himg, Htxt. subst i t.
  f_equal.
  - destruct (last_inlineData ps); reflexivity.
  - destruct (last_text ps); reflexivity.
Qed.

(** A first candidate without content, or whose content has no parts, makes
    the reading throw a [TypeError]. *)
Lemma read_without_parts (response : GenerateContentResponse)
    (first : Candidate) (others : list Candidate) :
  candidates response = Some (first :: others) ->
  parts_of first = None ->
  exists msg, read_response response = inl (ErrorObject "TypeError" msg).
Proof.
  intros H Hps. unfold read_response, parts_of in *. rewrite H.
  destruct (content first) as [c|]; [rewrite Hps|]; eexists; reflexivity.
Qed.

(** C2, as the client has it. With an API key and a provider that answers,
    [performVirtualTryOn] and [refineImage] end as [read_response] does on
    the answer. When the first candidate has content with parts, they
    return the payload of the last [inlineData] part and the last non-empty
    text among the parts that carry no [inlineData]; a field is null when
    the candidate has no part of that kind, and when the parts are one
    [inlineData] part and one part with a non-empty text, in either order,
    the result holds exactly those two values. When there is no candidate,
    they return two nulls. When the first candidate has no content, or its
    content no parts, they throw a [TypeError] instead of returning. *)
Theorem operations_return_last_of_each
    (process : Process) (key : string) (response : GenerateContentResponse)
    (person clothing personMime clothingMime image mime prompt : string) :
  set_to (env process !! "API_KEY") key ->
  (forall params, generateContent process key params = Resolves response) ->
  snd (performVirtualTryOn process person clothing personMime clothingMime)
    = read_response response
  /\ snd (refineImage process image mime prompt) = read_response response
  /\ match candidates response with
     | Some (first :: _) =>
         match parts_of first with
         | Some ps =>
             read_response response =
               inr {| imageBase64 := last_inlineData ps;
                      text := last_text ps |}
             /\ (Forall (fun p => inlineData p = None) ps ->
                 last_inlineData ps = None)
             /\ (Forall (fun p => part_text p = None) ps ->
                 last_text ps = None)
             /\ (forall d m t, t <> EmptyString ->
                   ps = [image_part d m; text_part t]
                   \/ ps = [text_part t; image_part d m] ->
                   read_response response =
                     inr {| imageBase64 := Some d; text := Some t |})
         | None =>
             exists msg,
               read_response response = inl (ErrorObject "TypeError" msg)
         end
     | Some [] | None => read_response response = inr nothing
     end.
Proof.
  intros Hkey Hanswer.
  split; [apply (generate_resolved process key _ response Hkey Hanswer)|].
  split; [apply (generate_resolved process key _ response Hkey Hanswer)|].
  destruct (candidates response) as [[|first others]|] eqn:Hc;
    [unfold read_response; now rewrite Hc | | unfold read_response; now rewrite Hc].
  destruct (parts_of first) as [ps|] eqn:Hps;
    [|exact (read_without_parts response first others Hc Hps)].
  pose proof (read_first_candidate response first others ps Hc Hps) as Hread.
  split; [exact Hread|]. split; [apply last_inlineData_absent|].
  split; [apply last_text_absent|].
  intros d m t Ht Hparts. apply String.eqb_neq in Ht. rewrite Hread.
  destruct Hparts as [-> | ->]; unfold last_inlineData, last_text;
    cbn; rewrite Ht; reflexivity.
Qed.

(** C7. When API_KEY is unset, each operation throws, and it has made no
    network call when it does. *)
Theorem operations_need_api_key
    (process : Process)
    (person clothing personMime clothingMime image mime prompt : string) :
  env process !! "API_KEY" = None ->
  performVirtualTryOn process person clothing personMime clothingMime
    = ([], inl api_key_unset)
  /\ refineImage process image mime prompt = ([], inl api_key_unset).
Proof.
  intros H. unfold performVirtualTryOn, refineImage, generate.
  rewrite H. split; reflexivity.
Qed.

(** An API key set to the empty string is treated like an unset one. *)
Lemma operations_need_nonempty_api_key
    (process : Process) (request_parts : list Part) :
  env process !! "API_KEY" = Some EmptyString ->
  generate process request_parts = ([], inl api_key_unset).
Proof.
  intros H. unfold generate. rewrite H. reflexivity.
Qed.

(** *** Further properties of the client *)

Lemma generate_rejected (process : Process) (key : string)
    (request_parts : list Part) (err : Thrown) :
  set_to (env process !! "API_KEY") key ->
  (forall params, generateContent process key params = Rejects err) ->
  snd (generate process request_parts) = inl err
  /\ length (fst (generate process request_parts)) = 1%nat.
Proof.
  intros [Hk Hne] Hanswer. unfold generate.
  rewrite Hk, (truthy_nonempty key Hne). cbn [negb str default from_option id].
  rewrite Hanswer. split; reflexivity.
Qed.

(** X7. When the provider rejects the call, each operation throws what the
    call was rejected with, after exactly one call; nothing is retried and
    nothing is caught. *)
Theorem operations_propagate_rejection
    (process : Process) (key : string) (err : Thrown)
    (person clothing personMime clothingMime image mime prompt : string) :
  set_to (env process !! "API_KEY") key ->
  (forall params, generateContent process key params = Rejects err) ->
  snd (performVirtualTryOn process person clothing personMime clothingMime)
    = inl err
  /\ length (fst (performVirtualTryOn process person clothing
                    personMime clothingMime)) = 1%nat
  /\ snd (refineImage process image mime prompt) = inl err
  /\ length (fst (refineImage process image mime prompt)) = 1%nat.
Proof.
  intros Hkey Hanswer.
  destruct (generate_rejected process key
              [image_part person personMime; image_part clothing clothingMime;
               text_part tryOn_prompt] err Hkey Hanswer) as [H1 H2].
  destruct (generate_rejected process key
              [image_part image mime; text_part (refine_prompt prompt)]
              err Hkey Hanswer) as [H3 H4].
  unfold performVirtualTryOn, refineImage. auto.
Qed.

(** X8. An API key set to the empty string is taken for a missing one: each
    operation throws the same error as for an unset key, and makes no
    network call. *)
Theorem operations_reject_empty_api_key
    (process : Process)
    (person clothing personMime clothingMime image mime prompt : string) :
  env process !! "API_KEY" = Some EmptyString ->
  performVirtualTryOn process person clothing personMime clothingMime
    = ([], inl api_key_unset)
  /\ refineImage process image mime prompt = ([], inl api_key_unset).
Proof.
  intros H. unfold performVirtualTryOn, refineImage.
  split; apply operations_need_nonempty_api_key; exact H.
Qed.

Lemma last_inlineData_None (ps : list Part) :
  last_inlineData ps = None <-> Forall (fun p => inlineData p = None) ps.
Proof.
  split; [|apply last_inlineData_absent].
  unfold last_inlineData. induction ps as [|p ps IH]; intros H; [constructor|].
  cbn [omap list_omap] in H. fold (omap (fun q => data <$> inlineData q) ps) in H.
  destruct (inlineData p) as [blob|] eqn:Hp; cbn [fmap option_fmap option_map] in H.
  - rewrite last_cons in H.
    destruct (last (omap (fun q => data <$> inlineData q) ps)); discriminate.
  - constructor; [exact Hp | exact (IH H)].
Qed.

(** X9. For a first candidate that has content with parts, the operation
    returns a result, and the image of the result is null exactly when no
    part carries [inlineData]: one such part anywhere among the parts,
    whatever else they hold, gives an image. *)
Theorem image_missing_iff_no_inline_part
    (first : Candidate) (others : list Candidate) (ps : list Part) :
  parts_of first = Some ps ->
  exists result,
    read_response {| candidates := Some (first :: others) |} = inr result
    /\ (imageBase64 result = None
        <-> Forall (fun p => inlineData p = None) ps).
Proof.
  intros Hps.
  exists {| imageBase64 := last_inlineData ps; text := last_text ps |}.
  split.
  - exact (read_first_candidate {| candidates := Some (first :: others) |}
             first others ps eq_refl Hps).
  - apply last_inlineData_None.
Qed.

(** X23. A first candidate without content, or whose content has no parts,
    makes both operations throw a [TypeError], after the one network call
    has been made; candidates after the first are not looked at. *)
Theorem operations_throw_without_parts
    (process : Process) (key : string) (response : GenerateContentResponse)
    (first : Candidate) (others : list Candidate)
    (person clothing personMime clothingMime image mime prompt : string) :
  set_to (env process !! "API_KEY") key ->
  (forall params, generateContent process key params = Resolves response) ->
  candidates response = Some (first :: others) ->
  parts_of first = None ->
  exists msg,
    snd (performVirtualTryOn process person clothing personMime clothingMime)
      = inl (ErrorObject "TypeError" msg)
    /\ length (fst (performVirtualTryOn process person clothing
                      personMime clothingMime)) = 1%nat
    /\ snd (refineImage process image mime prompt)
       = inl (ErrorObject "TypeError" msg)
    /\ length (fst (refineImage process image mime prompt)) = 1%nat.
Proof.
  intros Hkey Hanswer Hc Hps.
  destruct (read_without_parts response first others Hc Hps) as [msg Hmsg].
  exists msg. unfold performVirtualTryOn, refineImage.
  destruct (generate_resolved process key
              [image_part person personMime; image_part clothing clothingMime;
               text_part tryOn_prompt] response Hkey Hanswer) as [-> ->].
  destruct (generate_resolved process key
              [image_part image mime; text_part (refine_prompt prompt)]
              response Hkey Hanswer) as [-> ->].
  rewrite Hmsg. repeat split.
Qed.

Lemma last_omap_origin {A B : Type} (f : A -> option B) (l : list A) (y : B) :
  last (omap f l) = Some y -> exists x, x ∈ l /\ f x = Some y.
Proof.
  induction l as [|x l IH]; [discriminate|].
  cbn [omap list_omap]. fold (omap f l).
  destruct (f x) as [z|] eqn:Hx.
  - rewrite last_cons. destruct (last (omap f l)) as [w|] eqn:Hl.
    + intros H. destruct (IH H) as (x' & Hin & Hf).
      exists x'. split; [now apply list_elem_of_further | exact Hf].
    + intros [= <-]. exists x. split; [apply list_elem_of_here | exact Hx].
  - intros H. destruct (IH H) as (x' & Hin & Hf).
    exists x'. split; [now apply list_elem_of_further | exact Hf].
Qed.

(** X10. What a returned result holds comes from the parts of the first
    candidate: its image is the payload of one of the parts, and its text is
    the text of a part that carries no [inlineData]; the text of a result is
    never the empty string. *)
Theorem result_comes_from_the_parts
    (first : Candidate) (others : list Candidate) (result : GenerationResult) :
  read_response {| candidates := Some (first :: others) |} = inr result ->
  exists ps,
    parts_of first = Some ps
    /\ (forall d,
          imageBase64 result = Some d ->
          exists p, p ∈ ps /\ data <$> inlineData p = Some d)
    /\ (forall t,
          text result = Some t ->
          t <> EmptyString
          /\ exists p, p ∈ ps /\ inlineData p = None /\ part_text p = Some t).
Proof.
  intros Hread.
  destruct (parts_of first) as [ps|] eqn:Hps.
  2:{ destruct (read_without_parts {| candidates := Some (first :: others) |}
                  first others eq_refl Hps) as [msg Hmsg].
      rewrite Hmsg in Hread. discriminate. }
  rewrite (read_first_candidate {| candidates := Some (first :: others) |}
             first others ps eq_refl Hps) in Hread.
  injection Hread as <-. exists ps. split; [reflexivity|].
  cbn [imageBase64 text]. split.
  - intros d H. exact (last_omap_origin _ _ _ H).
  - intros t H. destruct (last_omap_origin _ _ _ H) as (p & Hin & Hp).
    unfold text_only in Hp.
    destruct (inlineData p) as [blob|] eqn:Hi; [discriminate|].
    destruct (part_text p) as [t'|] eqn:Ht; [|discriminate].
    destruct (String.eqb t' EmptyString) eqn:He; [discriminate|].
    injection Hp as <-. apply String.eqb_neq in He.
    split; [exact He|]. exists p. auto.
Qed.

(** *** The client on the sample inputs *)

Import Samples.

Lemma keyed_key : set_to (keyed !! "API_KEY") "key".
Proof. split; [reflexivity | discriminate]. Qed.

Lemma operations_return_last_of_each_witness :
  snd (performVirtualTryOn (provider keyed image_and_text)
         "cGVyc29u" "Y2xvdGg=" "image/jpeg" "image/png")
    = inr {| imageBase64 := Some "QUJD"; text := Some "done" |}
  /\ snd (refineImage (provider keyed image_and_text)
            "QUJD" "image/png" "make the sleeves shorter")
    = inr {| imageBase64 := Some "QUJD"; text := Some "done" |}.
Proof.
  destruct (operations_return_last_of_each
              (provider keyed image_and_text) "key" image_and_text
              "cGVyc29u" "Y2xvdGg=" "image/jpeg" "image/png"
              "QUJD" "image/png" "make the sleeves shorter"
              keyed_key (fun _ => eq_refl))
    as (Htry & Hrefine & _).
  split; [exact Htry | exact Hrefine].
Defined.

Lemma operations_need_api_key_witness :
  performVirtualTryOn (provider ∅ image_and_text)
    "cGVyc29u" "Y2xvdGg=" "image/jpeg" "image/png" = ([], inl api_key_unset)
  /\ refineImage (provider ∅ image_and_text)
       "QUJD" "image/png" "make the sleeves shorter" = ([], inl api_key_unset).
Proof.
  apply (operations_need_api_key (provider ∅ image_and_text)). reflexivity.
Defined.

(** C2, as stated, fails on a candidate with two [inlineData] parts: the
    first payload is the first part's, and the operation returns the
    second part's. *)
Lemma first_payload_not_returned :
  first_inlineData [image_part "Zmlyc3Q=" "image/png";
                    image_part "bGFzdA==" "image/png"] = Some "Zmlyc3Q="
  /\ snd (performVirtualTryOn (provider keyed two_images)
            "cGVyc29u" "Y2xvdGg=" "image/jpeg" "image/png")
     = inr {| imageBase64 := Some "bGFzdA=="; text := None |}
  /\ snd (performVirtualTryOn (provider keyed two_images)
            "cGVyc29u" "Y2xvdGg=" "image/jpeg" "image/png")
     <> inr {| imageBase64 :=
                 first_inlineData [image_part "Zmlyc3Q=" "image/png";
                                   image_part "bGFzdA==" "image/png"];
               text :=
                 first_text [image_part "Zmlyc3Q=" "image/png";
                             image_part "bGFzdA==" "image/png"] |}.
Proof. repeat split; try reflexivity. vm_compute. discriminate. Qed.

Lemma operations_propagate_rejection_witness :
  snd (performVirtualTryOn
         (rejecting keyed (ErrorObject "ApiError" "quota exceeded"))
         "cGVyc29u" "Y2xvdGg=" "image/jpeg" "image/png")
    = inl (ErrorObject "ApiError" "quota exceeded").
Proof.
  apply (operations_propagate_rejection
           (rejecting keyed (ErrorObject "ApiError" "quota exceeded")) "key"
           (ErrorObject "ApiError" "quota exceeded")
           "cGVyc29u" "Y2xvdGg=" "image/jpeg" "image/png"
           "QUJD" "image/png" "make the sleeves shorter" keyed_key).
  intros params. reflexivity.
Defined.

Lemma operations_reject_empty_api_key_witness :
  performVirtualTryOn (provider empty_key image_and_text)
    "cGVyc29u" "Y2xvdGg=" "image/jpeg" "image/png" = ([], inl api_key_unset)
  /\ refineImage (provider empty_key image_and_text)
       "QUJD" "image/png" "make the sleeves shorter" = ([], inl api_key_unset).
Proof.
  apply (operations_reject_empty_api_key (provider empty_key image_and_text)).
  reflexivity.
Defined.

Lemma result_comes_from_the_parts_witness :
  exists ps,
    parts_of {| content := Some {| parts := Some [text_part "done";
                                                  image_part "QUJD" "image/png"] |} |}
      = Some ps
    /\ (forall d,
          Some "QUJD" = Some d ->
          exists p, p ∈ ps /\ data <$> inlineData p = Some d)
    /\ (forall t,
          Some "done" = Some t ->
          t <> EmptyString
          /\ exists p, p ∈ ps /\ inlineData p = None /\ part_text p = Some t).
Proof.
  apply (result_comes_from_the_parts
           {| content := Some {| parts := Some [text_part "done";
                                                image_part "QUJD" "image/png"] |} |}
           [] {| imageBase64 := Some "QUJD"; text := Some "done" |}).
  reflexivity.
Defined.

Lemma image_missing_iff_no_inline_part_witness :
  exists result,
    read_response text_then_image = inr result
    /\ (imageBase64 result = None
        <-> Forall (fun p => inlineData p = None)
              [text_part "done"; image_part "QUJD" "image/png"]).
Proof.
  apply (image_missing_iff_no_inline_part
           {| content := Some {| parts := Some [text_part "done";
                                                image_part "QUJD" "image/png"] |} |}
           [] [text_part "done"; image_part "QUJD" "image/png"]).
  reflexivity.
Defined.

Lemma operations_throw_without_parts_witness :
  exists msg,
    snd (performVirtualTryOn (provider keyed blocked)
           "cGVyc29u" "Y2xvdGg=" "image/jpeg" "image/png")
      = inl (ErrorObject "TypeError" msg)
    /\ length (fst (performVirtualTryOn (provider keyed blocked)
                      "cGVyc29u" "Y2xvdGg=" "image/jpeg" "image/png")) = 1%nat
    /\ snd (refineImage (provider keyed blocked)
              "QUJD" "image/png" "make the sleeves shorter")
       = inl (ErrorObject "TypeError" msg)
    /\ length (fst (refineImage (provider keyed blocked)
                      "QUJD" "image/png" "make the sleeves shorter")) = 1%nat.
Proof.
  apply (operations_throw_without_parts (provider keyed blocked) "key" blocked
           {| content := None |} []
           "cGVyc29u" "Y2xvdGg=" "image/jpeg" "image/png"
           "QUJD" "image/png" "make the sleeves shorter" keyed_key).
  - intros params. reflexivity.
  - reflexivity.
  - reflexivity.
Defined.

End GeminiServiceFacts.

(** ** The UI controller *)

Module AppFacts.
Import JS JSFacts App.
Import GeminiService (GenerationResult, imageBase64, text).

(** The call [handleRefine] makes to the client in state [s]. *)
Abbreviation refine_outcome client s :=
  (refineImage client (split_comma_1 (str (resultImage s)))
     "image/png" (refinePrompt s)).

(** C8. In a state where the person image or the clothing image is missing,
    the generate action does one thing: it sets the error message. It does
    not reach the generation client and does not touch the loading flag. *)
Theorem generate_needs_both_images (client : Client) (s : AppState) :
  personImage s = None \/ clothingImage s = None ->
  effects (handleVirtualTryOn client s) =
    [setError (Some "Please upload both a person and a clothing image.")]
  /\ error (state_after (handleVirtualTryOn client s) s) =
       Some "Please upload both a person and a clothing image."
  /\ existsb is_client_call (effects (handleVirtualTryOn client s)) = false
  /\ existsb sets_loading (effects (handleVirtualTryOn client s)) = false
  /\ isLoading (state_after (handleVirtualTryOn client s) s) = isLoading s.
Proof.
  intros H.
  assert (E : handleVirtualTryOn client s =
              emit (setError (Some "Please upload both a person and a clothing image."))).
  { unfold handleVirtualTryOn.
    destruct H as [-> | ->]; [reflexivity|].
    destruct (personImage s); reflexivity. }
  unfold state_after. rewrite E. repeat split.
Qed.

(** The effects of a refine action that passed its guard and whose client
    returned a non-empty image. *)
Lemma refine_effects_success (client : Client) (s : AppState)
    (result : GenerationResult) (d : string) :
  truthy (resultImage s) = true ->
  trim (refinePrompt s) <> EmptyString ->
  refine_outcome client s = inr result ->
  imageBase64 result = Some d ->
  d <> EmptyString ->
  effects (handleRefine client s) =
    [setIsRefining true; setError None;
     call_refineImage (split_comma_1 (str (resultImage s))) "image/png"
       (refinePrompt s);
     setResultImage (Some (png_data_url d));
     setRefinePrompt EmptyString;
     setIsRefining false].
Proof.
  intros Hres Hprompt Hout Himg Hd.
  unfold handleRefine.
  rewrite Hres, (truthy_nonempty _ Hprompt). cbn [negb orb].
  rewrite Hout. cbn [await bind emit try_catch_finally effects fst app].
  rewrite Himg, (truthy_nonempty _ Hd). reflexivity.
Qed.

(** The effects of a refine action that passed its guard and failed: the
    client threw, or returned no image or an empty one. *)
Lemma refine_effects_failure (client : Client) (s : AppState) :
  truthy (resultImage s) = true ->
  trim (refinePrompt s) <> EmptyString ->
  (exists err, refine_outcome client s = inl err)
  \/ (exists result, refine_outcome client s = inr result
                     /\ truthy (imageBase64 result) = false) ->
  exists msg,
    effects (handleRefine client s) =
      [setIsRefining true; setError None;
       call_refineImage (split_comma_1 (str (resultImage s))) "image/png"
         (refinePrompt s);
       console_error msg;
       setError (Some ("Failed to refine image: " +:+ msg));
       setIsRefining false].
Proof.
  intros Hres Hprompt Hout.
  unfold handleRefine.
  rewrite Hres, (truthy_nonempty _ Hprompt). cbn [negb orb].
  destruct Hout as [[err Hout] | [result [Hout Himg]]]; rewrite Hout.
  - exists (errorMessage err). reflexivity.
  - exists "The AI model did not return a refined image.".
    cbn [await bind emit try_catch_finally effects fst app].
    rewrite Himg. reflexivity.
Qed.

(** C9, as the component has it. A refine action that passed its guard
    always ends with the refining flag cleared. When the client returned an
    image that is neither null nor empty, the result image is replaced by
    the returned image (as a PNG data URL) and the prompt field is cleared;
    when the client threw, or returned no image or an empty one, an error
    is set and the result image and the prompt are kept. *)
Theorem refine_replaces_and_clears (client : Client) (s : AppState) :
  truthy (resultImage s) = true ->
  trim (refinePrompt s) <> EmptyString ->
  isRefining (state_after (handleRefine client s) s) = false
  /\ (forall result d,
        refine_outcome client s = inr result ->
        imageBase64 result = Some d ->
        d <> EmptyString ->
        resultImage (state_after (handleRefine client s) s)
          = Some (png_data_url d)
        /\ refinePrompt (state_after (handleRefine client s) s) = EmptyString
        /\ error (state_after (handleRefine client s) s) = None)
  /\ ((exists err, refine_outcome client s = inl err)
      \/ (exists result, refine_outcome client s = inr result
                         /\ truthy (imageBase64 result) = false) ->
      is_Some (error (state_after (handleRefine client s) s))
      /\ resultImage (state_after (handleRefine client s) s) = resultImage s
      /\ refinePrompt (state_after (handleRefine client s) s) = refinePrompt s).
Proof.
  intros Hres Hprompt.
  assert (Hfail :
    (exists err, refine_outcome client s = inl err)
    \/ (exists result, refine_outcome client s = inr result
                       /\ truthy (imageBase64 result) = false) ->
    isRefining (state_after (handleRefine client s) s) = false
    /\ is_Some (error (state_after (handleRefine client s) s))
    /\ resultImage (state_after (handleRefine client s) s) = resultImage s
    /\ refinePrompt (state_after (handleRefine client s) s) = refinePrompt s).
  { intros Hout.
    destruct (refine_effects_failure client s Hres Hprompt Hout) as [msg E].
    unfold state_after. rewrite E. cbn. repeat split. eexists; reflexivity. }
  assert (Hsucc : forall result d,
    refine_outcome client s = inr result ->
    imageBase64 result = Some d ->
    d <> EmptyString ->
    isRefining (state_after (handleRefine client s) s) = false
    /\ resultImage (state_after (handleRefine client s) s)
        = Some (png_data_url d)
    /\ refinePrompt (state_after (handleRefine client s) s) = EmptyString
    /\ error (state_after (handleRefine client s) s) = None).
  { intros result d Hout Himg Hd. unfold state_after.
    rewrite (refine_effects_success client s result d Hres Hprompt Hout Himg Hd).
    cbn. repeat split. }
  split; [|split].
  - destruct (refine_outcome client s) as [err | result] eqn:Hout.
    + apply Hfail. left. now exists err.
    + destruct (truthy (imageBase64 result)) eqn:Himg.
      * destruct (truthy_Some _ Himg) as (d & Hd & Hne).
        apply (Hsucc result d eq_refl Hd Hne).
      * apply Hfail. right. now exists result.
  - intros result d Hout Himg Hd. apply (Hsucc result d Hout Himg Hd).
  - intros Hout. apply (Hfail Hout).
Qed.

(** *** Further properties of the component *)

Lemma trimStart_blank (s : string) : blank s = true -> trimStart s = EmptyString.
Proof.
  induction s as [|c rest IH]; [reflexivity|].
  cbn [blank trimStart]. intros H. apply andb_true_iff in H as [Hc Hrest].
  rewrite Hc. exact (IH Hrest).
Qed.

Lemma trimStart_not_blank (s : string) :
  blank s = false ->
  exists c rest, trimStart s = String c rest /\ isWhiteSpace c = false.
Proof.
  induction s as [|c rest IH]; [discriminate|].
  cbn [blank trimStart]. destruct (isWhiteSpace c) eqn:Hc.
  - cbn [andb]. exact IH.
  - intros _. exists c, rest. split; [reflexivity | exact Hc].
Qed.

Lemma trimEnd_keeps_head (c : ascii) (rest : string) :
  isWhiteSpace c = false -> trimEnd (String c rest) <> EmptyString.
Proof.
  intros Hc. cbn [trimEnd]. destruct (trimEnd rest); [rewrite Hc|]; discriminate.
Qed.

(** A prompt passes the test [refinePrompt.trim()] exactly when it is not
    blank. *)
Lemma trim_truthy (s : string) : truthy (Some (trim s)) = negb (blank s).
Proof.
  unfold trim. destruct (blank s) eqn:Hb.
  - rewrite (trimStart_blank s Hb). reflexivity.
  - destruct (trimStart_not_blank s Hb) as (c & rest & -> & Hc).
    apply truthy_nonempty. now apply trimEnd_keeps_head.
Qed.

(** X11. Without a result image, or with a prompt of white space only, the
    refine action does one thing: it sets its error message. It does not
    reach the generation client, and it leaves the refining flag, the result
    image and the prompt field as they are. *)
Theorem refine_needs_result_and_prompt (client : Client) (s : AppState) :
  truthy (resultImage s) = false \/ blank (refinePrompt s) = true ->
  effects (handleRefine client s) =
    [setError (Some "Cannot refine without a result image and a prompt.")]
  /\ client_calls (effects (handleRefine client s)) = []
  /\ isRefining (state_after (handleRefine client s) s) = isRefining s
  /\ resultImage (state_after (handleRefine client s) s) = resultImage s
  /\ refinePrompt (state_after (handleRefine client s) s) = refinePrompt s.
Proof.
  intros H.
  assert (E : handleRefine client s =
              emit (setError (Some "Cannot refine without a result image and a prompt."))).
  { unfold handleRefine. rewrite trim_truthy.
    destruct H as [-> | ->]; [reflexivity|].
    destruct (truthy (resultImage s)); reflexivity. }
  unfold state_after. rewrite E. repeat split.
Qed.

(** The effects of a generate action whose files load and whose client
    returns a non-empty image. *)
Lemma generate_effects_success (client : Client) (s : AppState)
    (p c : ImageState) (up uc : string) (result : GenerationResult) (d : string) :
  personImage s = Some p ->
  clothingImage s = Some c ->
  readAsDataURL (file p) = Loaded up ->
  readAsDataURL (file c) = Loaded uc ->
  performVirtualTryOn client (split_comma_1 up) (split_comma_1 uc)
    (type (file p)) (type (file c)) = inr result ->
  imageBase64 result = Some d ->
  d <> EmptyString ->
  effects (handleVirtualTryOn client s) =
    [setIsLoading true; setError None; setResultImage None;
     read_file (file p); read_file (file c);
     call_performVirtualTryOn (split_comma_1 up) (split_comma_1 uc)
       (type (file p)) (type (file c));
     setResultImage (Some (png_data_url d));
     setIsLoading false].
Proof.
  intros Hp Hc Hup Huc Hout Himg Hd.
  unfold handleVirtualTryOn, toBase64. rewrite Hp, Hc.
  cbn [fmap option_fmap option_map]. rewrite Hup, Huc.
  cbn [await bind emit ret try_catch_finally effects fst app].
  rewrite Hout. cbn [await bind emit ret try_catch_finally effects fst app].
  rewrite Himg, (truthy_nonempty _ Hd). reflexivity.
Qed.

(** X12. A generate action whose two files load and whose client returns an
    image that is not empty shows that image as a PNG data URL, with no
    error and the loading flag cleared; the client was called once, with the
    base64 parts of the two data URLs and the types of the two files. *)
Theorem generate_shows_returned_image (client : Client) (s : AppState)
    (p c : ImageState) (up uc : string) (result : GenerationResult) (d : string) :
  personImage s = Some p ->
  clothingImage s = Some c ->
  readAsDataURL (file p) = Loaded up ->
  readAsDataURL (file c) = Loaded uc ->
  performVirtualTryOn client (split_comma_1 up) (split_comma_1 uc)
    (type (file p)) (type (file c)) = inr result ->
  imageBase64 result = Some d ->
  d <> EmptyString ->
  resultImage (state_after (handleVirtualTryOn client s) s)
    = Some (png_data_url d)
  /\ error (state_after (handleVirtualTryOn client s) s) = None
  /\ isLoading (state_after (handleVirtualTryOn client s) s) = false
  /\ client_calls (effects (handleVirtualTryOn client s)) =
       [call_performVirtualTryOn (split_comma_1 up) (split_comma_1 uc)
          (type (file p)) (type (file c))].
Proof.
  intros Hp Hc Hup Huc Hout Himg Hd. unfold state_after.
  rewrite (generate_effects_success client s p c up uc result d
             Hp Hc Hup Huc Hout Himg Hd).
  repeat split.
Qed.

(** X13. A generate action that passed its guard ends, whatever the files
    and the client do, with the loading flag cleared and in one of two
    ways: a result image and no error, or an error that starts with
    "Failed to generate image: " and no result image. It calls the client
    at most once. *)
Theorem generate_ends_shown_or_failed (client : Client) (s : AppState)
    (p c : ImageState) :
  personImage s = Some p ->
  clothingImage s = Some c ->
  isLoading (state_after (handleVirtualTryOn client s) s) = false
  /\ ((exists d, d <> EmptyString
                /\ resultImage (state_after (handleVirtualTryOn client s) s)
                   = Some (png_data_url d)
                /\ error (state_after (handleVirtualTryOn client s) s) = None)
      \/ (exists msg,
            resultImage (state_after (handleVirtualTryOn client s) s) = None
            /\ error (state_after (handleVirtualTryOn client s) s)
               = Some ("Failed to generate image: " +:+ msg)))
  /\ (length (client_calls (effects (handleVirtualTryOn client s))) <= 1)%nat.
Proof.
  intros Hp Hc. unfold state_after, handleVirtualTryOn, toBase64.
  rewrite Hp, Hc. cbn [fmap option_fmap option_map].
  destruct (readAsDataURL (file p)) as [up| |];
    [destruct (readAsDataURL (file c)) as [uc| |];
       [destruct (performVirtualTryOn client (split_comma_1 up)
                    (split_comma_1 uc) (type (file p)) (type (file c)))
          as [err | result] eqn:Hout;
          [|destruct (truthy (imageBase64 result)) eqn:Himg] | |] | |];
    cbn [await bind emit ret throw try_catch_finally effects fst app];
    rewrite ?Hout;
    cbn [await bind emit ret throw try_catch_finally effects fst app];
    rewrite ?Himg;
    (split; [reflexivity | split; [|vm_compute; lia]]);
    try (right; eexists; split; reflexivity).
  left. destruct (truthy_Some _ Himg) as (d & Hd & Hne).
  exists d. rewrite Hd. repeat split. exact Hne.
Qed.

(** X14. When one of the two files cannot be read, the generate action
    never reaches the client: it ends with the loading flag cleared, no
    result image, and the error of a failed read. *)
Theorem unreadable_file_stops_generate (client : Client) (s : AppState)
    (p c : ImageState) :
  personImage s = Some p ->
  clothingImage s = Some c ->
  readable (file p) = false \/ readable (file c) = false ->
  client_calls (effects (handleVirtualTryOn client s)) = []
  /\ isLoading (state_after (handleVirtualTryOn client s) s) = false
  /\ resultImage (state_after (handleVirtualTryOn client s) s) = None
  /\ (error (state_after (handleVirtualTryOn client s) s)
        = Some "Failed to generate image: Failed to read file as base64"
      \/ error (state_after (handleVirtualTryOn client s) s)
        = Some "Failed to generate image: An unknown error occurred.").
Proof.
  intros Hp Hc Hread. unfold state_after, handleVirtualTryOn, toBase64, readable in *.
  rewrite Hp, Hc. cbn [fmap option_fmap option_map].
  destruct (readAsDataURL (file p)) as [up| |];
    destruct (readAsDataURL (file c)) as [uc| |];
    try (destruct Hread; discriminate);
    cbn; repeat split; auto.
Qed.

Lemma until_comma_free (d : string) : comma_free d -> until_comma d = d.
Proof.
  unfold comma_free. induction d as [|ch rest IH]; [reflexivity|].
  cbn [after_comma until_comma]. destruct (Ascii.eqb ch comma); [discriminate|].
  intros H. now rewrite (IH H).
Qed.

(** The base64 part of a PNG data URL built from a payload without a comma
    is the payload. *)
Lemma split_png_data_url (d : string) :
  comma_free d -> split_comma_1 (png_data_url d) = Some d.
Proof.
  intros H.
  change (split_comma_1 (png_data_url d)) with (Some (until_comma d)).
  now rewrite (until_comma_free d H).
Qed.

Lemma png_data_url_truthy (d : string) : truthy (Some (png_data_url d)) = true.
Proof. reflexivity. Qed.

(** X15. Generate and refine compose: after a generate action has shown the
    image the client returned (a payload without a comma) and the user has
    typed a prompt that is not blank, the refine action hands that same
    payload back to the client, as image/png, with the prompt as typed. *)
Theorem refine_sends_back_generated_image
    (client client' : Client) (s : AppState)
    (p c : ImageState) (up uc : string) (result : GenerationResult)
    (d prompt : string) :
  personImage s = Some p ->
  clothingImage s = Some c ->
  readAsDataURL (file p) = Loaded up ->
  readAsDataURL (file c) = Loaded uc ->
  performVirtualTryOn client (split_comma_1 up) (split_comma_1 uc)
    (type (file p)) (type (file c)) = inr result ->
  imageBase64 result = Some d ->
  d <> EmptyString ->
  comma_free d ->
  blank prompt = false ->
  client_calls
    (effects (handleRefine client'
                (apply_effect (state_after (handleVirtualTryOn client s) s)
                              (setRefinePrompt prompt))))
  = [call_refineImage (Some d) "image/png" prompt].
Proof.
  intros Hp Hc Hup Huc Hout Himg Hd Hfree Hprompt. unfold state_after.
  rewrite (generate_effects_success client s p c up uc result d
             Hp Hc Hup Huc Hout Himg Hd).
  unfold handleRefine.
  cbn [apply_effects fold_left apply_effect resultImage refinePrompt].
  rewrite trim_truthy, Hprompt, png_data_url_truthy. cbn [negb orb str default from_option id].
  rewrite (split_png_data_url d Hfree).
  destruct (refineImage client' (Some d) "image/png" prompt) as [err | r];
    [reflexivity|].
  cbn [await bind emit ret throw try_catch_finally effects fst app].
  destruct (truthy (imageBase64 r)); reflexivity.
Qed.

(** X16. Start over brings the component from any state back to the state
    it started in, without a call to the client; the generate button is
    disabled again and no result is shown. *)
Theorem start_over_resets (s : AppState) :
  state_after handleStartOver s = initial
  /\ client_calls (effects handleStartOver) = []
  /\ isButtonDisabled (state_after handleStartOver s) = true
  /\ result_shown (state_after handleStartOver s) = false.
Proof. repeat split. Qed.

(** X17. Start over does not cancel a refine action that is waiting for the
    client: when the client then returns a non-empty image, that image is
    set as the result image on top of the reset state. *)
Theorem start_over_does_not_cancel_refine
    (client : Client) (s : AppState) (result : GenerationResult) (d : string) :
  truthy (resultImage s) = true ->
  blank (refinePrompt s) = false ->
  refine_outcome client s = inr result ->
  imageBase64 result = Some d ->
  d <> EmptyString ->
  state_after_interleaved (handleRefine client s) handleStartOver s =
    {| personImage := None; clothingImage := None;
       resultImage := Some (png_data_url d);
       isLoading := false; isRefining := false; error := None;
       refinePrompt := EmptyString |}.
Proof.
  intros Hres Hprompt Hout Himg Hd.
  assert (Htrim : trim (refinePrompt s) <> EmptyString).
  { intros E. pose proof (trim_truthy (refinePrompt s)) as H.
    rewrite E, Hprompt in H. discriminate. }
  unfold state_after_interleaved.
  rewrite (refine_effects_success client s result d Hres Htrim Hout Himg Hd).
  reflexivity.
Qed.

(** X18. An upload changes at most the image of its kind: the other image,
    the result image, the error, the flags and the prompt stay as they are,
    and the client is not called. A file whose read does not end with a
    string changes nothing at all, and no error is set for it. *)
Theorem upload_changes_one_image (f : File) (kind : ImageKind) (s : AppState) :
  resultImage (state_after (handleImageUpload f kind) s) = resultImage s
  /\ error (state_after (handleImageUpload f kind) s) = error s
  /\ isLoading (state_after (handleImageUpload f kind) s) = isLoading s
  /\ isRefining (state_after (handleImageUpload f kind) s) = isRefining s
  /\ refinePrompt (state_after (handleImageUpload f kind) s) = refinePrompt s
  /\ client_calls (effects (handleImageUpload f kind)) = []
  /\ (kind = person ->
      clothingImage (state_after (handleImageUpload f kind) s) = clothingImage s)
  /\ (kind = clothing ->
      personImage (state_after (handleImageUpload f kind) s) = personImage s)
  /\ (readable f = false -> state_after (handleImageUpload f kind) s = s)
  /\ (forall url, readAsDataURL f = Loaded url ->
      match kind with
      | person => personImage (state_after (handleImageUpload f kind) s)
      | clothing => clothingImage (state_after (handleImageUpload f kind) s)
      end = Some {| preview := url; file := f |}).
Proof.
  unfold state_after, handleImageUpload, readable.
  destruct (readAsDataURL f) as [url| |]; destruct kind; destruct s;
    repeat split; try discriminate; try reflexivity.
  all: intros url' [= <-]; reflexivity.
Qed.

(** X19. Through the generate button the guard of the generate action
    cannot fail: when the button is enabled, the action starts by setting
    the loading flag. *)
Theorem enabled_generate_button_passes_guard (client : Client) (s : AppState) :
  isButtonDisabled s = false ->
  head (effects (handleVirtualTryOn client s)) = Some (setIsLoading true).
Proof.
  unfold isButtonDisabled, handleVirtualTryOn, toBase64. intros H.
  destruct (personImage s) as [p|]; [|discriminate].
  destruct (clothingImage s) as [c|]; [|discriminate].
  cbn [fmap option_fmap option_map].
  destruct (readAsDataURL (file p)); [destruct (readAsDataURL (file c))| |];
    cbn [await bind emit ret throw try_catch_finally effects fst app];
    try reflexivity.
  destruct (performVirtualTryOn client _ _ _ _) as [err | r]; [reflexivity|].
  cbn [await bind emit ret throw try_catch_finally effects fst app].
  destruct (truthy (imageBase64 r)); reflexivity.
Qed.

(** X20. Through the refine button the guard of the refine action cannot
    fail: when the result is shown and the button is enabled, the action
    starts by setting the refining flag. *)
Theorem enabled_refine_button_passes_guard (client : Client) (s : AppState) :
  result_shown s = true ->
  refine_disabled s = false ->
  head (effects (handleRefine client s)) = Some (setIsRefining true).
Proof.
  unfold result_shown, refine_disabled, handleRefine. intros Hshown Hen.
  apply andb_true_iff in Hshown as [Hres _].
  apply orb_false_iff in Hen as [_ Hprompt].
  rewrite Hres, Hprompt. cbn [negb orb].
  destruct (refineImage client _ _ _) as [err | r]; [reflexivity|].
  cbn [await bind emit ret throw try_catch_finally effects fst app].
  destruct (truthy (imageBase64 r)); reflexivity.
Qed.

(** X21. While an action waits for the client its button is disabled: at
    the call of the generate action the loading flag is set (and the error
    and the old result are cleared), and at the call of the refine action
    the refining flag is set. *)
Theorem buttons_disabled_during_call (client : Client) (s : AppState) :
  (forall at_call,
     state_at_call s (effects (handleVirtualTryOn client s)) = Some at_call ->
     isButtonDisabled at_call = true
     /\ error at_call = None /\ resultImage at_call = None)
  /\ (forall at_call,
        state_at_call s (effects (handleRefine client s)) = Some at_call ->
        refine_disabled at_call = true /\ error at_call = None).
Proof.
  split; intros at_call.
  - unfold handleVirtualTryOn, toBase64, isButtonDisabled.
    destruct (personImage s) as [p|]; [|discriminate].
    destruct (clothingImage s) as [c|];
      cbn [fmap option_fmap option_map]; [|discriminate].
    destruct (readAsDataURL (file p)); [destruct (readAsDataURL (file c))| |];
      cbn [await bind emit ret throw try_catch_finally effects fst app];
      try (cbn; discriminate).
    destruct (performVirtualTryOn client _ _ _ _) as [err | r];
      [|cbn [await bind emit ret throw try_catch_finally effects fst app];
        destruct (truthy (imageBase64 r))];
      cbn; intros [= <-]; cbn; rewrite ?orb_true_r; auto.
  - unfold handleRefine, refine_disabled.
    destruct (negb (truthy (resultImage s))
              || negb (truthy (Some (trim (refinePrompt s))))); [discriminate|].
    destruct (refineImage client _ _ _) as [err | r];
      [|cbn [await bind emit ret throw try_catch_finally effects fst app];
        destruct (truthy (imageBase64 r))];
      cbn; intros [= <-]; cbn; auto.
Qed.

(** X22. Whenever the result is shown, the download action offers exactly
    the shown image, under the name virtual-try-on-result.png; without a
    result image it offers nothing. *)
Theorem download_offers_shown_result (s : AppState) :
  (result_shown s = true ->
   exists url, resultImage s = Some url
               /\ handleDownload s =
                    Some {| href := url;
                            download := "virtual-try-on-result.png" |})
  /\ (truthy (resultImage s) = false -> handleDownload s = None).
Proof.
  unfold result_shown, handleDownload. split.
  - intros H. apply andb_true_iff in H as [Hres _].
    destruct (truthy_Some _ Hres) as (url & Hurl & _).
    exists url. rewrite Hres, Hurl. split; reflexivity.
  - intros ->. reflexivity.
Qed.

(** *** The actions on the sample inputs *)

Import Samples.

Lemma generate_needs_both_images_witness :
  effects (handleVirtualTryOn (returning (Some "QUJD")) person_only) =
    [setError (Some "Please upload both a person and a clothing image.")].
Proof.
  apply (generate_needs_both_images (returning (Some "QUJD")) person_only).
  right. reflexivity.
Defined.

Lemma refine_replaces_and_clears_witness :
  isRefining (state_after (handleRefine (returning (Some "bmV3")) with_result)
                with_result) = false
  /\ resultImage (state_after (handleRefine (returning (Some "bmV3")) with_result)
                    with_result) = Some "data:image/png;base64,bmV3"
  /\ refinePrompt (state_after (handleRefine (returning (Some "bmV3")) with_result)
                     with_result) = EmptyString.
Proof.
  assert (Hres : truthy (resultImage with_result) = true) by reflexivity.
  assert (Hprompt : trim (refinePrompt with_result) <> EmptyString)
    by (vm_compute; discriminate).
  destruct (refine_replaces_and_clears (returning (Some "bmV3")) with_result
              Hres Hprompt) as (Hflag & Hsucc & _).
  split; [exact Hflag|].
  destruct (Hsucc {| imageBase64 := Some "bmV3"; text := None |} "bmV3"
              eq_refl eq_refl) as (Himg & Hp & _); [discriminate|].
  split; [exact Himg | exact Hp].
Defined.

(** A client that rejects: the error is shown, the flag is cleared, and the
    result image stays. *)
Example refine_rejected :
  state_after (handleRefine (failing (ErrorObject "Error" "network down")) with_result)
    with_result =
  {| personImage := Some uploaded; clothingImage := Some uploaded;
     resultImage := Some "data:image/png;base64,QUJD";
     isLoading := false; isRefining := false;
     error := Some "Failed to refine image: network down";
     refinePrompt := "make the sleeves shorter" |}.
Proof. reflexivity. Qed.

(** C9, as stated, fails when the client returns the empty string, which
    is not null: the action ends in an error, the result image is the one
    from before and the prompt is not cleared. *)
Lemma empty_image_is_not_a_success :
  refineImage (returning (Some EmptyString)) (Some "QUJD") "image/png"
      "make the sleeves shorter"
    = inr {| imageBase64 := Some EmptyString; text := None |}
  /\ resultImage (state_after (handleRefine (returning (Some EmptyString)) with_result)
                    with_result) = Some "data:image/png;base64,QUJD"
  /\ resultImage (state_after (handleRefine (returning (Some EmptyString)) with_result)
                    with_result) <> Some (png_data_url EmptyString)
  /\ refinePrompt (state_after (handleRefine (returning (Some EmptyString)) with_result)
                     with_result) = "make the sleeves shorter"
  /\ error (state_after (handleRefine (returning (Some EmptyString)) with_result)
              with_result)
     = Some "Failed to refine image: The AI model did not return a refined image.".
Proof. repeat split; try reflexivity. vm_compute. discriminate. Qed.

Lemma refine_needs_result_and_prompt_witness :
  effects (handleRefine (returning (Some "bmV3")) blank_prompt) =
    [setError (Some "Cannot refine without a result image and a prompt.")].
Proof.
  apply (refine_needs_result_and_prompt (returning (Some "bmV3")) blank_prompt).
  right. reflexivity.
Defined.

Lemma generate_shows_returned_image_witness :
  resultImage (state_after (handleVirtualTryOn (returning (Some "QUJD"))
                              both_uploaded) both_uploaded)
    = Some "data:image/png;base64,QUJD".
Proof.
  apply (generate_shows_returned_image (returning (Some "QUJD")) both_uploaded
           uploaded
           {| preview := "data:image/png;base64,Y2xvdGg="; file := garment |}
           "data:image/jpeg;base64,cGVyc29u" "data:image/png;base64,Y2xvdGg="
           {| imageBase64 := Some "QUJD"; text := None |} "QUJD");
    try reflexivity.
  discriminate.
Defined.

Lemma generate_ends_shown_or_failed_witness :
  isLoading (state_after (handleVirtualTryOn (failing OtherValue) both_uploaded)
               both_uploaded) = false.
Proof.
  apply (generate_ends_shown_or_failed (failing OtherValue) both_uploaded
           uploaded
           {| preview := "data:image/png;base64,Y2xvdGg="; file := garment |});
    reflexivity.
Defined.

Lemma unreadable_file_stops_generate_witness :
  client_calls (effects (handleVirtualTryOn (returning (Some "QUJD"))
                           broken_person)) = [].
Proof.
  apply (unreadable_file_stops_generate (returning (Some "QUJD")) broken_person
           {| preview := EmptyString; file := broken_file |} uploaded);
    try reflexivity.
  left. reflexivity.
Defined.

Lemma refine_sends_back_generated_image_witness :
  client_calls
    (effects (handleRefine (returning (Some "bmV3"))
                (apply_effect
                   (state_after (handleVirtualTryOn (returning (Some "QUJD"))
                                   both_uploaded) both_uploaded)
                   (setRefinePrompt "make the sleeves shorter"))))
  = [call_refineImage (Some "QUJD") "image/png" "make the sleeves shorter"].
Proof.
  apply (refine_sends_back_generated_image
           (returning (Some "QUJD")) (returning (Some "bmV3")) both_uploaded
           uploaded
           {| preview := "data:image/png;base64,Y2xvdGg="; file := garment |}
           "data:image/jpeg;base64,cGVyc29u" "data:image/png;base64,Y2xvdGg="
           {| imageBase64 := Some "QUJD"; text := None |} "QUJD"
           "make the sleeves shorter");
    try reflexivity.
  discriminate.
Defined.

Lemma start_over_does_not_cancel_refine_witness :
  state_after_interleaved (handleRefine (returning (Some "bmV3")) with_result)
    handleStartOver with_result =
    {| personImage := None; clothingImage := None;
       resultImage := Some "data:image/png;base64,bmV3";
       isLoading := false; isRefining := false; error := None;
       refinePrompt := EmptyString |}.
Proof.
  apply (start_over_does_not_cancel_refine (returning (Some "bmV3")) with_result
           {| imageBase64 := Some "bmV3"; text := None |} "bmV3");
    try reflexivity.
  discriminate.
Defined.

Lemma enabled_generate_button_passes_guard_witness :
  head (effects (handleVirtualTryOn (returning (Some "QUJD")) both_uploaded))
    = Some (setIsLoading true).
Proof.
  apply (enabled_generate_button_passes_guard (returning (Some "QUJD"))
           both_uploaded).
  reflexivity.
Defined.

Lemma enabled_refine_button_passes_guard_witness :
  head (effects (handleRefine (returning (Some "bmV3")) with_result))
    = Some (setIsRefining true).
Proof.
  apply (enabled_refine_button_passes_guard (returning (Some "bmV3"))
           with_result); reflexivity.
Defined.

Lemma buttons_disabled_during_call_witness :
  isButtonDisabled
    {| personImage := personImage both_uploaded;
       clothingImage := clothingImage both_uploaded;
       resultImage := None; isLoading := true; isRefining := false;
       error := None; refinePrompt := EmptyString |} = true.
Proof.
  destruct (buttons_disabled_during_call (returning (Some "QUJD")) both_uploaded)
    as [Hgenerate _].
  apply Hgenerate. reflexivity.
Defined.

Lemma download_offers_shown_result_witness :
  exists url,
    resultImage with_result = Some url
    /\ handleDownload with_result =
         Some {| href := url; download := "virtual-try-on-result.png" |}.
Proof.
  destruct (download_offers_shown_result with_result) as [Hshown _].
  apply Hshown. reflexivity.
Defined.

End AppFacts.
